(** * The memory facade of the runtime: [core/iwasm/common/wasm_memory.c]

    The file keeps one process-wide selection of an allocation backend
    (a pool engine, a caller-supplied allocator, or the platform
    allocator) in a handful of [static] variables, and routes
    [wasm_runtime_malloc], [wasm_runtime_realloc] and [wasm_runtime_free]
    through it.

    The embedding below is shallow: every C function of the file is a
    computation in a small monad that threads the statics and the state
    of the outside world, records the diagnostics and the calls made to
    the collaborators, and can end the process ([exit]). *)

From Stdlib Require Import ZArith List String Bool Lia.
Import ListNotations.

#[local] Open Scope Z_scope.

(** ** Values *)

(** A [void *], a [mem_allocator_t] and a function pointer are all
    addresses; [NULL] is address 0. *)
Definition ptr := Z.
Definition NULL : ptr := 0.

(** C truth value of a pointer used as a condition. *)
Definition nonnull (p : ptr) : bool := negb (p =? NULL).

(** [unsigned int] values are kept as [Z]; the file only stores, compares
    and returns them. *)
Definition UINT32_MAX : Z := 4294967295.

(** [typedef enum Memory_Mode] *)
Inductive Memory_Mode :=
| MEMORY_MODE_UNKNOWN
| MEMORY_MODE_POOL
| MEMORY_MODE_ALLOCATOR
| MEMORY_MODE_SYSTEM_ALLOCATOR.

(** Modelled from the spec: the enumeration [mem_alloc_type_t] is declared
    in a header of the runtime that accompanies [wasm_memory.c]; the spec
    speaks of a requested mode tag with three recognised values, any other
    tag being rejected.  A tag is the integer a C enum is, and the three
    enumerators take C's default numbering. *)
Definition mem_alloc_type_t := Z.
Definition Alloc_With_Pool : mem_alloc_type_t := 0.
Definition Alloc_With_Allocator : mem_alloc_type_t := 1.
Definition Alloc_With_System_Allocator : mem_alloc_type_t := 2.

(** Modelled from the spec: [MemAllocOption] is declared in the same
    header; the spec lists, for the pool, a region address and its size
    in bytes, and for the custom allocator an allocate function, an
    optional reallocate function, a release function and an optional
    opaque user context.  Each initialisation path reads only its own
    member, so the two members are kept side by side. *)
Module MemAllocOption.
Record pool_t := { heap_buf : ptr; heap_size : Z }.
Record allocator_t :=
  { malloc_func : ptr; realloc_func : ptr; free_func : ptr; user_data : ptr }.
Record t := { pool : pool_t; allocator : allocator_t }.
End MemAllocOption.

(** ** The statics of the file *)

Record Globals := {
  memory_mode : Memory_Mode;
  pool_allocator : ptr;
  (** exists only when [WASM_MEM_ALLOC_WITH_USER_DATA != 0]; otherwise
      it is never written and never read *)
  allocator_user_data : ptr;
  malloc_func : ptr;
  realloc_func : ptr;
  free_func : ptr;
  global_pool_size : Z
}.

(** The initialisers of the statics ([global_pool_size] has none and is
    zero-initialised). *)
Definition initial_globals : Globals :=
  {| memory_mode := MEMORY_MODE_UNKNOWN;
     pool_allocator := NULL;
     allocator_user_data := NULL;
     malloc_func := NULL;
     realloc_func := NULL;
     free_func := NULL;
     global_pool_size := 0 |}.

Definition with_memory_mode (m : Memory_Mode) (g : Globals) : Globals :=
  {| memory_mode := m;
     pool_allocator := pool_allocator g;
     allocator_user_data := allocator_user_data g;
     malloc_func := malloc_func g;
     realloc_func := realloc_func g;
     free_func := free_func g;
     global_pool_size := global_pool_size g |}.

Definition with_pool_allocator (h : ptr) (g : Globals) : Globals :=
  {| memory_mode := memory_mode g;
     pool_allocator := h;
     allocator_user_data := allocator_user_data g;
     malloc_func := malloc_func g;
     realloc_func := realloc_func g;
     free_func := free_func g;
     global_pool_size := global_pool_size g |}.

Definition with_allocator_user_data (u : ptr) (g : Globals) : Globals :=
  {| memory_mode := memory_mode g;
     pool_allocator := pool_allocator g;
     allocator_user_data := u;
     malloc_func := malloc_func g;
     realloc_func := realloc_func g;
     free_func := free_func g;
     global_pool_size := global_pool_size g |}.

Definition with_malloc_func (f : ptr) (g : Globals) : Globals :=
  {| memory_mode := memory_mode g;
     pool_allocator := pool_allocator g;
     allocator_user_data := allocator_user_data g;
     malloc_func := f;
     realloc_func := realloc_func g;
     free_func := free_func g;
     global_pool_size := global_pool_size g |}.

Definition with_realloc_func (f : ptr) (g : Globals) : Globals :=
  {| memory_mode := memory_mode g;
     pool_allocator := pool_allocator g;
     allocator_user_data := allocator_user_data g;
     malloc_func := malloc_func g;
     realloc_func := f;
     free_func := free_func g;
     global_pool_size := global_pool_size g |}.

Definition with_free_func (f : ptr) (g : Globals) : Globals :=
  {| memory_mode := memory_mode g;
     pool_allocator := pool_allocator g;
     allocator_user_data := allocator_user_data g;
     malloc_func := malloc_func g;
     realloc_func := realloc_func g;
     free_func := f;
     global_pool_size := global_pool_size g |}.

Definition with_global_pool_size (n : Z) (g : Globals) : Globals :=
  {| memory_mode := memory_mode g;
     pool_allocator := pool_allocator g;
     allocator_user_data := allocator_user_data g;
     malloc_func := malloc_func g;
     realloc_func := realloc_func g;
     free_func := free_func g;
     global_pool_size := n |}.

(** ** What the file does to the outside *)

(** A call into a collaborator, with its arguments.  The three [Fn_*]
    calls go through a stored function pointer [fn]; they carry the user
    data argument only in a build with [WASM_MEM_ALLOC_WITH_USER_DATA]. *)
Inductive call :=
| Pool_create (mem : ptr) (bytes : Z)
| Pool_destroy (h : ptr)
| Pool_malloc (h : ptr) (size : Z)
| Pool_realloc (h : ptr) (p : ptr) (size : Z)
| Pool_free (h : ptr) (p : ptr)
| Pool_get_alloc_info (h : ptr) (info : ptr)
| Os_malloc (size : Z)
| Os_realloc (p : ptr) (size : Z)
| Os_free (p : ptr)
| Fn_malloc (fn : ptr) (ud : option ptr) (size : Z)
| Fn_realloc (fn : ptr) (ud : option ptr) (p : ptr) (size : Z)
| Fn_free (fn : ptr) (ud : option ptr) (p : ptr).

Inductive event :=
| Warning (msg : string)
| Error (fmt : string) (args : list Z)
| Invoke (c : call).

(** The calls among the events, in order. *)
Fixpoint backend_calls (t : list event) : list call :=
  match t with
  | [] => []
  | Invoke c :: t' => c :: backend_calls t'
  | _ :: t' => backend_calls t'
  end.

(** ** The collaborators *)

(** The pool engine ([mem_alloc.h]), the platform allocator
    ([bh_platform.h]) and the code behind a function pointer are outside
    the file.  Each is a function on the state [W] of the outside world.
    [W] does not contain the statics of the file: they have internal
    linkage, and a collaborator is taken not to call back into the
    facade. *)
Module Ext.
Class Platform (W : Type) := {
  mem_allocator_create : ptr -> Z -> W -> ptr * W;
  mem_allocator_destroy : ptr -> W -> Z * W;
  mem_allocator_malloc : ptr -> Z -> W -> ptr * W;
  mem_allocator_realloc : ptr -> ptr -> Z -> W -> ptr * W;
  mem_allocator_free : ptr -> ptr -> W -> W;
  mem_allocator_get_alloc_info : ptr -> ptr -> W -> bool * W;
  os_malloc : Z -> W -> ptr * W;
  os_realloc : ptr -> Z -> W -> ptr * W;
  os_free : ptr -> W -> W;
  (** indirect calls [fn(user_data?, ...)] *)
  indirect_malloc : ptr -> option ptr -> Z -> W -> ptr * W;
  indirect_realloc : ptr -> option ptr -> ptr -> Z -> W -> ptr * W;
  indirect_free : ptr -> option ptr -> ptr -> W -> W
}.
End Ext.

(** The two preprocessor switches the file tests. *)
Class BuildConfig := {
  WASM_MEM_ALLOC_WITH_USER_DATA : Z;
  BH_ENABLE_GC_VERIFY : Z
}.

(** ** The monad *)

Record Machine (W : Type) := { ctx : Globals; world : W }.
Arguments ctx {W} _.
Arguments world {W} _.

(** A computation either returns a value or ends the process with an
    exit status; either way it leaves a machine and the events of the
    run. *)
Inductive result (W A : Type) :=
| Done (a : A) (s : Machine W) (t : list event)
| Exit (status : Z) (s : Machine W) (t : list event).
Arguments Done {W A} _ _ _.
Arguments Exit {W A} _ _ _.

Definition M (W A : Type) := Machine W -> result W A.

Definition ret {W A} (a : A) : M W A := fun s => Done a s [].

Definition bind {W A B} (m : M W A) (k : A -> M W B) : M W B :=
  fun s =>
    match m s with
    | Done a s1 t1 =>
        match k a s1 with
        | Done b s2 t2 => Done b s2 (t1 ++ t2)
        | Exit c s2 t2 => Exit c s2 (t1 ++ t2)
        end
    | Exit c s1 t1 => Exit c s1 t1
    end.

Declare Scope facade_scope.
Delimit Scope facade_scope with facade.
Notation "x <- m ;; k" := (bind m (fun x => k))
  (at level 61, m at next level, right associativity) : facade_scope.
Notation "m ;; k" := (bind m (fun _ => k))
  (at level 61, right associativity) : facade_scope.
#[local] Open Scope facade_scope.

Definition events_of {W A} (r : result W A) : list event :=
  match r with Done _ _ t => t | Exit _ _ t => t end.

Definition machine_of {W A} (r : result W A) : Machine W :=
  match r with Done _ s _ => s | Exit _ s _ => s end.

Section Facade.

Context {W : Type} {platform : Ext.Platform W} {build : BuildConfig}.

(** *** Primitive effects *)

Definition read {A} (f : Globals -> A) : M W A :=
  fun s => Done (f (ctx s)) s [].

Definition assign (f : Globals -> Globals) : M W unit :=
  fun s => Done tt {| ctx := f (ctx s); world := world s |} [].

Definition LOG_WARNING (msg : string) : M W unit :=
  fun s => Done tt s [Warning msg].

Definition LOG_ERROR (fmt : string) (args : list Z) : M W unit :=
  fun s => Done tt s [Error fmt args].

Definition exit {A} (status : Z) : M W A :=
  fun s => Exit status s [].

(** A call that returns a value. *)
Definition extern {A} (c : call) (f : W -> A * W) : M W A :=
  fun s =>
    let (a, w) := f (world s) in
    Done a {| ctx := ctx s; world := w |} [Invoke c].

(** A call that returns nothing. *)
Definition extern_void (c : call) (f : W -> W) : M W unit :=
  fun s => Done tt {| ctx := ctx s; world := f (world s) |} [Invoke c].

(** *** The collaborators as computations *)

Definition mem_allocator_create (mem : ptr) (bytes : Z) : M W ptr :=
  extern (Pool_create mem bytes) (Ext.mem_allocator_create mem bytes).

Definition mem_allocator_destroy (h : ptr) : M W Z :=
  extern (Pool_destroy h) (Ext.mem_allocator_destroy h).

Definition mem_allocator_malloc (h : ptr) (size : Z) : M W ptr :=
  extern (Pool_malloc h size) (Ext.mem_allocator_malloc h size).

Definition mem_allocator_realloc (h p : ptr) (size : Z) : M W ptr :=
  extern (Pool_realloc h p size) (Ext.mem_allocator_realloc h p size).

Definition mem_allocator_free (h p : ptr) : M W unit :=
  extern_void (Pool_free h p) (Ext.mem_allocator_free h p).

Definition mem_allocator_get_alloc_info (h info : ptr) : M W bool :=
  extern (Pool_get_alloc_info h info)
         (Ext.mem_allocator_get_alloc_info h info).

Definition os_malloc (size : Z) : M W ptr :=
  extern (Os_malloc size) (Ext.os_malloc size).

Definition os_realloc (p : ptr) (size : Z) : M W ptr :=
  extern (Os_realloc p size) (Ext.os_realloc p size).

Definition os_free (p : ptr) : M W unit :=
  extern_void (Os_free p) (Ext.os_free p).

(** [fn(size)] or [fn(user_data, size)] through a function pointer. *)
Definition call_malloc (fn : ptr) (ud : option ptr) (size : Z) : M W ptr :=
  extern (Fn_malloc fn ud size) (Ext.indirect_malloc fn ud size).

Definition call_realloc (fn : ptr) (ud : option ptr) (p : ptr) (size : Z)
  : M W ptr :=
  extern (Fn_realloc fn ud p size) (Ext.indirect_realloc fn ud p size).

Definition call_free (fn : ptr) (ud : option ptr) (p : ptr) : M W unit :=
  extern_void (Fn_free fn ud p) (Ext.indirect_free fn ud p).

(** [#if WASM_MEM_ALLOC_WITH_USER_DATA != 0] *)
Definition with_user_data : bool :=
  negb (WASM_MEM_ALLOC_WITH_USER_DATA =? 0).

(** [#if BH_ENABLE_GC_VERIFY == 0] *)
Definition gc_verify_off : bool := BH_ENABLE_GC_VERIFY =? 0.

(** *** The functions of the file *)

Definition wasm_memory_init_with_pool (mem : ptr) (bytes : Z) : M W bool :=
  _allocator <- mem_allocator_create mem bytes ;;
  if nonnull _allocator then
    assign (with_memory_mode MEMORY_MODE_POOL) ;;
    assign (with_pool_allocator _allocator) ;;
    assign (with_global_pool_size bytes) ;;
    ret true
  else
    LOG_ERROR "Init memory with pool (%p, %u) failed.\n" [mem; bytes] ;;
    ret false.

(** The variant compiled when [WASM_MEM_ALLOC_WITH_USER_DATA != 0]. *)
Definition wasm_memory_init_with_allocator_user_data
  (_user_data _malloc_func _realloc_func _free_func : ptr) : M W bool :=
  if nonnull _malloc_func && nonnull _free_func
     && negb (_malloc_func =? _free_func) then
    assign (with_memory_mode MEMORY_MODE_ALLOCATOR) ;;
    assign (with_allocator_user_data _user_data) ;;
    assign (with_malloc_func _malloc_func) ;;
    assign (with_realloc_func _realloc_func) ;;
    assign (with_free_func _free_func) ;;
    ret true
  else
    LOG_ERROR "Init memory with allocator (%p, %p, %p, %p) failed.\n"
              [_user_data; _malloc_func; _realloc_func; _free_func] ;;
    ret false.

(** The variant compiled otherwise. *)
Definition wasm_memory_init_with_allocator
  (_malloc_func _realloc_func _free_func : ptr) : M W bool :=
  if nonnull _malloc_func && nonnull _free_func
     && negb (_malloc_func =? _free_func) then
    assign (with_memory_mode MEMORY_MODE_ALLOCATOR) ;;
    assign (with_malloc_func _malloc_func) ;;
    assign (with_realloc_func _realloc_func) ;;
    assign (with_free_func _free_func) ;;
    ret true
  else
    LOG_ERROR "Init memory with allocator (%p, %p, %p) failed.\n"
              [_malloc_func; _realloc_func; _free_func] ;;
    ret false.

(** [alloc_option] is the structure the argument points to. *)
Definition wasm_runtime_memory_init
  (mem_alloc_type : mem_alloc_type_t) (alloc_option : MemAllocOption.t)
  : M W bool :=
  let pool := MemAllocOption.pool alloc_option in
  let allocator := MemAllocOption.allocator alloc_option in
  if mem_alloc_type =? Alloc_With_Pool then
    wasm_memory_init_with_pool (MemAllocOption.heap_buf pool)
                               (MemAllocOption.heap_size pool)
  else if mem_alloc_type =? Alloc_With_Allocator then
    if with_user_data then
      wasm_memory_init_with_allocator_user_data
        (MemAllocOption.user_data allocator)
        (MemAllocOption.malloc_func allocator)
        (MemAllocOption.realloc_func allocator)
        (MemAllocOption.free_func allocator)
    else
      wasm_memory_init_with_allocator
        (MemAllocOption.malloc_func allocator)
        (MemAllocOption.realloc_func allocator)
        (MemAllocOption.free_func allocator)
  else if mem_alloc_type =? Alloc_With_System_Allocator then
    assign (with_memory_mode MEMORY_MODE_SYSTEM_ALLOCATOR) ;;
    ret true
  else
    ret false.

Definition wasm_runtime_memory_destroy : M W unit :=
  mode <- read memory_mode ;;
  match mode with
  | MEMORY_MODE_POOL =>
      h <- read pool_allocator ;;
      if gc_verify_off then
        mem_allocator_destroy h ;; ret tt
      else
        r <- mem_allocator_destroy h ;;
        if negb (r =? 0) then exit (-1) (* Memory leak detected *)
        else ret tt
  | _ => ret tt
  end ;;
  assign (with_memory_mode MEMORY_MODE_UNKNOWN).

Definition wasm_runtime_memory_pool_size : M W Z :=
  mode <- read memory_mode ;;
  match mode with
  | MEMORY_MODE_POOL => read global_pool_size
  | _ => ret UINT32_MAX
  end.

(** The user data argument of an indirect call, present only in a build
    with user data. *)
Definition user_data_arg : M W (option ptr) :=
  if with_user_data then u <- read allocator_user_data ;; ret (Some u)
  else ret None.

Definition wasm_runtime_malloc_internal (size : Z) : M W ptr :=
  mode <- read memory_mode ;;
  match mode with
  | MEMORY_MODE_UNKNOWN =>
      LOG_WARNING
        "wasm_runtime_malloc failed: memory hasn't been initialize.\n" ;;
      ret NULL
  | MEMORY_MODE_POOL =>
      h <- read pool_allocator ;;
      mem_allocator_malloc h size
  | MEMORY_MODE_ALLOCATOR =>
      f <- read malloc_func ;;
      u <- user_data_arg ;;
      call_malloc f u size
  | MEMORY_MODE_SYSTEM_ALLOCATOR =>
      os_malloc size
  end.

Definition wasm_runtime_realloc_internal (p : ptr) (size : Z) : M W ptr :=
  mode <- read memory_mode ;;
  match mode with
  | MEMORY_MODE_UNKNOWN =>
      LOG_WARNING
        "wasm_runtime_realloc failed: memory hasn't been initialize.\n" ;;
      ret NULL
  | MEMORY_MODE_POOL =>
      h <- read pool_allocator ;;
      mem_allocator_realloc h p size
  | MEMORY_MODE_ALLOCATOR =>
      f <- read realloc_func ;;
      if nonnull f then
        u <- user_data_arg ;;
        call_realloc f u p size
      else
        ret NULL
  | MEMORY_MODE_SYSTEM_ALLOCATOR =>
      os_realloc p size
  end.

Definition wasm_runtime_free_internal (p : ptr) : M W unit :=
  if p =? NULL then
    LOG_WARNING "warning: wasm_runtime_free with NULL pointer\n"
  else
    mode <- read memory_mode ;;
    match mode with
    | MEMORY_MODE_UNKNOWN =>
        LOG_WARNING
          "warning: wasm_runtime_free failed: memory hasn't been initialize.\n"
    | MEMORY_MODE_POOL =>
        h <- read pool_allocator ;;
        mem_allocator_free h p
    | MEMORY_MODE_ALLOCATOR =>
        f <- read free_func ;;
        u <- user_data_arg ;;
        call_free f u p
    | MEMORY_MODE_SYSTEM_ALLOCATOR =>
        os_free p
    end.

Definition wasm_runtime_malloc (size : Z) : M W ptr :=
  size <- (if size =? 0 then
             LOG_WARNING "warning: wasm_runtime_malloc with size zero\n" ;;
             (* At lease alloc 1 byte to avoid malloc failed *)
             ret 1
           else ret size) ;;
  wasm_runtime_malloc_internal size.

Definition wasm_runtime_realloc (p : ptr) (size : Z) : M W ptr :=
  wasm_runtime_realloc_internal p size.

Definition wasm_runtime_free (p : ptr) : M W unit :=
  wasm_runtime_free_internal p.

Definition wasm_runtime_get_mem_alloc_info (mem_alloc_info : ptr)
  : M W bool :=
  mode <- read memory_mode ;;
  match mode with
  | MEMORY_MODE_POOL =>
      h <- read pool_allocator ;;
      mem_allocator_get_alloc_info h mem_alloc_info
  | _ => ret false
  end.

End Facade.

(** ** A caller: a sequence of routed requests *)

Inductive request :=
| Allocate (size : Z)
| Reallocate (p : ptr) (size : Z)
| Release (p : ptr).

Section Driver.

Context {W : Type} {platform : Ext.Platform W} {build : BuildConfig}.

(** One request through the public entry point; a release has no value. *)
Definition route (r : request) : M W (option ptr) :=
  match r with
  | Allocate size => p <- wasm_runtime_malloc size ;; ret (Some p)
  | Reallocate p size => q <- wasm_runtime_realloc p size ;; ret (Some q)
  | Release p => wasm_runtime_free p ;; ret None
  end.

Fixpoint route_all (rs : list request) : M W (list (option ptr)) :=
  match rs with
  | [] => ret []
  | r :: rs' =>
      x <- route r ;;
      xs <- route_all rs' ;;
      ret (x :: xs)
  end.

End Driver.

(** ** A host: any use of the public functions *)

Inductive api :=
| Init (mem_alloc_type : mem_alloc_type_t) (alloc_option : MemAllocOption.t)
| Destroy
| PoolSize
| MemAllocInfo (mem_alloc_info : ptr)
| Request (r : request).

Section Host.

Context {W : Type} {platform : Ext.Platform W} {build : BuildConfig}.

(** One call of a public function, its value dropped. *)
Definition perform (a : api) : M W unit :=
  match a with
  | Init tag opt => wasm_runtime_memory_init tag opt ;; ret tt
  | Destroy => wasm_runtime_memory_destroy
  | PoolSize => wasm_runtime_memory_pool_size ;; ret tt
  | MemAllocInfo info => wasm_runtime_get_mem_alloc_info info ;; ret tt
  | Request r => route r ;; ret tt
  end.

(** A sequence of calls; an [exit] ends it. *)
Fixpoint perform_all (ops : list api) : M W unit :=
  match ops with
  | [] => ret tt
  | a :: ops' => perform a ;; perform_all ops'
  end.

(** The user data an indirect call is given, as [user_data_arg] reads
    it. *)
Definition stored_user_data (g : Globals) : option ptr :=
  if with_user_data then Some (allocator_user_data g) else None.

End Host.

(** ** Predicates on statics and calls *)

(** The statics are usable in their mode: a pool mode has a handle, an
    allocator mode has an allocate and a release function, distinct. *)
Definition well_formed (g : Globals) : bool :=
  match memory_mode g with
  | MEMORY_MODE_POOL => nonnull (pool_allocator g)
  | MEMORY_MODE_ALLOCATOR =>
      nonnull (malloc_func g) && nonnull (free_func g)
      && negb (malloc_func g =? free_func g)
  | _ => true
  end.

(** A call that passes no null handle to the engine and goes through no
    null function pointer. *)
Definition call_ok (c : call) : bool :=
  match c with
  | Pool_create _ _ => true
  | Pool_destroy h => nonnull h
  | Pool_malloc h _ => nonnull h
  | Pool_realloc h _ _ => nonnull h
  | Pool_free h _ => nonnull h
  | Pool_get_alloc_info h _ => nonnull h
  | Os_malloc _ | Os_realloc _ _ | Os_free _ => true
  | Fn_malloc fn _ _ => nonnull fn
  | Fn_realloc fn _ _ _ => nonnull fn
  | Fn_free fn _ _ => nonnull fn
  end.

(** A request to the pool engine on handle [h]. *)
Definition pool_call_on (h : ptr) (c : call) : Prop :=
  match c with
  | Pool_malloc h' _ | Pool_realloc h' _ _ | Pool_free h' _ => h' = h
  | _ => False
  end.

(** A request through one of the three stored functions, with user data
    [ud]. *)
Definition custom_call_with (m r f : ptr) (ud : option ptr) (c : call)
  : Prop :=
  match c with
  | Fn_malloc fn u _ => fn = m /\ u = ud
  | Fn_realloc fn u _ _ => fn = r /\ u = ud
  | Fn_free fn u _ => fn = f /\ u = ud
  | _ => False
  end.

(** A request to the platform allocator. *)
Definition os_call (c : call) : Prop :=
  match c with
  | Os_malloc _ | Os_realloc _ _ | Os_free _ => True
  | _ => False
  end.

(** Calls that all go to the backend the mode of [g] names, with the
    handle or the functions [g] holds. *)
Definition on_active_backend {build : BuildConfig} (g : Globals)
  (cs : list call) : Prop :=
  match memory_mode g with
  | MEMORY_MODE_UNKNOWN => cs = []
  | MEMORY_MODE_POOL => Forall (pool_call_on (pool_allocator g)) cs
  | MEMORY_MODE_ALLOCATOR =>
      Forall (custom_call_with (malloc_func g) (realloc_func g) (free_func g)
                               (stored_user_data g)) cs
  | MEMORY_MODE_SYSTEM_ALLOCATOR => Forall os_call cs
  end.

(** A request that reaches a backend from statics [g]: any request in an
    initialised mode but the release of a null pointer and, in allocator
    mode, a reallocation when no reallocate function is stored. *)
Definition forwarded (g : Globals) (r : request) : bool :=
  match memory_mode g, r with
  | MEMORY_MODE_UNKNOWN, _ => false
  | _, Release p => nonnull p
  | MEMORY_MODE_ALLOCATOR, Reallocate _ _ => nonnull (realloc_func g)
  | _, _ => true
  end.

(** A request that no backend sees in any mode: the release of a null
    pointer. *)
Definition null_release (r : request) : bool :=
  match r with
  | Release p => p =? NULL
  | _ => false
  end.

(** The size an allocate call asks for. *)
Definition allocate_size (c : call) : option Z :=
  match c with
  | Pool_malloc _ size | Fn_malloc _ _ size | Os_malloc size => Some size
  | _ => None
  end.

(** ** A small concrete platform

    A bump allocator that counts live blocks stands for all three
    backends; it is used to run the facade on concrete inputs. *)
Module Demo.

Record heap := { brk : Z; live : Z }.

Definition bump (size : Z) (w : heap) : ptr * heap :=
  (brk w, {| brk := brk w + size; live := live w + 1 |}).

Definition rebump (p : ptr) (size : Z) (w : heap) : ptr * heap :=
  if p =? NULL then bump size w
  else (brk w, {| brk := brk w + size; live := live w |}).

Definition drop (w : heap) : heap :=
  {| brk := brk w; live := live w - 1 |}.

(** The engine refuses a null region and one smaller than 64 bytes; its
    handle is the address of the region; destroying it reports the number
    of blocks still live. *)
#[global] Instance platform : Ext.Platform heap := {|
  Ext.mem_allocator_create mem bytes w :=
    (if (mem =? NULL) || (bytes <? 64) then NULL else mem, w);
  Ext.mem_allocator_destroy h w := (live w, w);
  Ext.mem_allocator_malloc h size w := bump size w;
  Ext.mem_allocator_realloc h p size w := rebump p size w;
  Ext.mem_allocator_free h p w := drop w;
  Ext.mem_allocator_get_alloc_info h info w := (true, w);
  Ext.os_malloc size w := bump size w;
  Ext.os_realloc p size w := rebump p size w;
  Ext.os_free p w := drop w;
  Ext.indirect_malloc fn ud size w := bump size w;
  Ext.indirect_realloc fn ud p size w := rebump p size w;
  Ext.indirect_free fn ud p w := drop w
|}.

Definition plain_build : BuildConfig :=
  {| WASM_MEM_ALLOC_WITH_USER_DATA := 0; BH_ENABLE_GC_VERIFY := 0 |}.

Definition verify_build : BuildConfig :=
  {| WASM_MEM_ALLOC_WITH_USER_DATA := 1; BH_ENABLE_GC_VERIFY := 1 |}.

(** The process at start-up. *)
Definition fresh : Machine heap :=
  {| ctx := initial_globals; world := {| brk := 4096; live := 0 |} |}.

Definition pool_option (mem : ptr) (bytes : Z) : MemAllocOption.t :=
  {| MemAllocOption.pool :=
       {| MemAllocOption.heap_buf := mem; MemAllocOption.heap_size := bytes |};
     MemAllocOption.allocator :=
       {| MemAllocOption.malloc_func := NULL;
          MemAllocOption.realloc_func := NULL;
          MemAllocOption.free_func := NULL;
          MemAllocOption.user_data := NULL |} |}.

Definition allocator_option (m r f u : ptr) : MemAllocOption.t :=
  {| MemAllocOption.pool :=
       {| MemAllocOption.heap_buf := NULL; MemAllocOption.heap_size := 0 |};
     MemAllocOption.allocator :=
       {| MemAllocOption.malloc_func := m;
          MemAllocOption.realloc_func := r;
          MemAllocOption.free_func := f;
          MemAllocOption.user_data := u |} |}.

(** The machine a computation leaves. *)
Definition after {A} (m : M heap A) (s : Machine heap) : Machine heap :=
  machine_of (m s).

(** Start-up followed by one successful initialisation, in a build
    without user data and without leak verification. *)
Definition pooled : Machine heap :=
  after (wasm_runtime_memory_init (build := plain_build)
           Alloc_With_Pool (pool_option 65536 1024)) fresh.

Definition custom : Machine heap :=
  after (wasm_runtime_memory_init (build := plain_build)
           Alloc_With_Allocator (allocator_option 100 300 200 7)) fresh.

Definition custom_no_realloc : Machine heap :=
  after (wasm_runtime_memory_init (build := plain_build)
           Alloc_With_Allocator (allocator_option 100 NULL 200 7)) fresh.

Definition system : Machine heap :=
  after (wasm_runtime_memory_init (build := plain_build)
           Alloc_With_System_Allocator (pool_option NULL 0)) fresh.

(** A pool with one block still allocated, in a build with leak
    verification. *)
Definition leaky : Machine heap :=
  after (wasm_runtime_malloc (build := verify_build) 8)
        (after (wasm_runtime_memory_init (build := verify_build)
                  Alloc_With_Pool (pool_option 65536 1024)) fresh).

(** A pool that has been destroyed. *)
Definition destroyed : Machine heap :=
  after (wasm_runtime_memory_destroy (build := plain_build)) pooled.

(** A pool re-initialised to the system allocator. *)
Definition repurposed : Machine heap :=
  after (wasm_runtime_memory_init (build := plain_build)
           Alloc_With_System_Allocator (pool_option NULL 0)) pooled.

(** A host session: a pool is set up, used and destroyed, then a custom
    allocator without a reallocate function takes over. *)
Definition session : list api :=
  [ Init Alloc_With_Pool (pool_option 65536 1024);
    Request (Allocate 0);
    Request (Release 4096);
    MemAllocInfo 9000;
    PoolSize;
    Destroy;
    Request (Allocate 8);
    Init Alloc_With_Allocator (allocator_option 100 NULL 200 7);
    Request (Reallocate 4096 32);
    Request (Allocate 16);
    Destroy;
    Destroy ].

Definition requests : list request :=
  [ Allocate 0; Allocate 24; Reallocate 4096 0; Release NULL; Release 4096 ].

End Demo.

(** * Properties *)

Create HintDb facade.

#[local] Hint Unfold
  wasm_runtime_malloc wasm_runtime_malloc_internal
  wasm_runtime_realloc wasm_runtime_realloc_internal
  wasm_runtime_free wasm_runtime_free_internal
  wasm_runtime_memory_init wasm_memory_init_with_pool
  wasm_memory_init_with_allocator wasm_memory_init_with_allocator_user_data
  wasm_runtime_memory_destroy wasm_runtime_memory_pool_size
  wasm_runtime_get_mem_alloc_info user_data_arg
  mem_allocator_create mem_allocator_destroy mem_allocator_malloc
  mem_allocator_realloc mem_allocator_free mem_allocator_get_alloc_info
  os_malloc os_realloc os_free call_malloc call_realloc call_free
  read assign LOG_WARNING LOG_ERROR exit extern extern_void bind ret
  : facade.

(** Unfold the computation and evaluate what is known. *)
Ltac run := autounfold with facade; cbn.

(** Name the outcome of the next call into a collaborator. *)
Ltac step_call :=
  match goal with
  | |- context [let (_, _) := ?e in _] =>
      let a := fresh "a" in let w := fresh "w" in
      destruct e as [a w] eqn:?; cbn
  end.

Section Properties.

Context {W : Type} {platform : Ext.Platform W} {build : BuildConfig}.

(** The request that reaches the backend when [wasm_runtime_malloc_internal]
    runs: one call in an initialised mode, none before initialisation. *)
Lemma malloc_internal_runs (size : Z) (s : Machine W) :
  exists p s' t,
    wasm_runtime_malloc_internal size s = Done p s' t /\
    ctx s' = ctx s /\
    backend_calls t =
      match memory_mode (ctx s) with
      | MEMORY_MODE_UNKNOWN => []
      | MEMORY_MODE_POOL => [Pool_malloc (pool_allocator (ctx s)) size]
      | MEMORY_MODE_ALLOCATOR =>
          [Fn_malloc (malloc_func (ctx s))
                     (if with_user_data then Some (allocator_user_data (ctx s))
                      else None)
                     size]
      | MEMORY_MODE_SYSTEM_ALLOCATOR => [Os_malloc size]
      end.
Proof.
  run. destruct (memory_mode (ctx s)); cbn.
  - do 3 eexists; repeat split; reflexivity.
  - step_call. do 3 eexists; repeat split; reflexivity.
  - destruct with_user_data; cbn; step_call;
      do 3 eexists; repeat split; reflexivity.
  - step_call. do 3 eexists; repeat split; reflexivity.
Qed.

(** C1. In every mode, and so in each of the three initialised ones,
    [wasm_runtime_malloc 0] does what [wasm_runtime_malloc 1] does: both
    return, with the same pointer and the same final machine; the run with
    size 0 only emits the size-zero diagnostic first.  The one backend
    call made is the allocate operation of the active backend, with
    size 1. *)
Theorem malloc_zero_promoted_to_one (s : Machine W) :
  exists p s' t,
    wasm_runtime_malloc 1 s = Done p s' t /\
    wasm_runtime_malloc 0 s =
      Done p s' (Warning "warning: wasm_runtime_malloc with size zero\n" :: t) /\
    backend_calls (events_of (wasm_runtime_malloc 0 s)) = backend_calls t /\
    backend_calls t =
      match memory_mode (ctx s) with
      | MEMORY_MODE_UNKNOWN => []
      | MEMORY_MODE_POOL => [Pool_malloc (pool_allocator (ctx s)) 1]
      | MEMORY_MODE_ALLOCATOR =>
          [Fn_malloc (malloc_func (ctx s))
                     (if with_user_data then Some (allocator_user_data (ctx s))
                      else None)
                     1]
      | MEMORY_MODE_SYSTEM_ALLOCATOR => [Os_malloc 1]
      end.
Proof.
  destruct (malloc_internal_runs 1 s) as (p & s' & t & Hrun & _ & Hcalls).
  exists p, s', t.
  assert (H1 : wasm_runtime_malloc 1 s = Done p s' t).
  { unfold wasm_runtime_malloc, bind, ret.
    cbn -[wasm_runtime_malloc_internal]. rewrite Hrun. reflexivity. }
  assert (H0 : wasm_runtime_malloc 0 s =
               Done p s' (Warning "warning: wasm_runtime_malloc with size zero\n" :: t)).
  { unfold wasm_runtime_malloc, bind, ret, LOG_WARNING.
    cbn -[wasm_runtime_malloc_internal]. rewrite Hrun. reflexivity. }
  repeat split; try assumption.
  rewrite H0. reflexivity.
Qed.

(** The mode is [MEMORY_MODE_UNKNOWN] at start-up, stays so through a
    failed initialisation, and is so again after a destroy that returns. *)
Lemma mode_at_startup : memory_mode initial_globals = MEMORY_MODE_UNKNOWN.
Proof. reflexivity. Qed.

Lemma mode_after_destroy (s s' : Machine W) (t : list event) :
  wasm_runtime_memory_destroy s = Done tt s' t ->
  memory_mode (ctx s') = MEMORY_MODE_UNKNOWN.
Proof.
  run. destruct (memory_mode (ctx s)); cbn;
    try (intros H; inversion H; reflexivity).
  destruct gc_verify_off; cbn; step_call.
  - intros H; inversion H; reflexivity.
  - destruct (a =? 0); cbn; intros H; inversion H; reflexivity.
Qed.

(** C2. While the mode is [MEMORY_MODE_UNKNOWN], as it is at start-up and
    after [wasm_runtime_memory_destroy] returns, an allocation of any size
    returns [NULL], leaves the machine as it was and calls no backend; so
    does a reallocation of any pointer to any size.  Only diagnostics are
    emitted. *)
Theorem uninitialized_requests_yield_null (s : Machine W) :
  memory_mode (ctx s) = MEMORY_MODE_UNKNOWN ->
  (forall size, exists t,
      wasm_runtime_malloc size s = Done NULL s t /\
      backend_calls t = [] /\
      t = (if size =? 0
           then [Warning "warning: wasm_runtime_malloc with size zero\n"]
           else [])
          ++ [Warning
                "wasm_runtime_malloc failed: memory hasn't been initialize.\n"])
  /\
  (forall p size,
      wasm_runtime_realloc p size s =
        Done NULL s
             [Warning
                "wasm_runtime_realloc failed: memory hasn't been initialize.\n"]
      /\ backend_calls (events_of (wasm_runtime_realloc p size s)) = []).
Proof.
  intros Hmode. split.
  - intros size. run.
    destruct (size =? 0); cbn; rewrite Hmode; cbn;
      eexists; repeat split; reflexivity.
  - intros p size. run. rewrite Hmode. cbn. split; reflexivity.
Qed.

(** C3. In every mode, releasing [NULL] returns at once: the machine
    (statics and outside world) is what it was, no backend is called, and
    the only event is the null-pointer diagnostic. *)
Theorem free_null_is_noop (s : Machine W) :
  wasm_runtime_free NULL s =
    Done tt s [Warning "warning: wasm_runtime_free with NULL pointer\n"] /\
  backend_calls (events_of (wasm_runtime_free NULL s)) = [] /\
  ctx (machine_of (wasm_runtime_free NULL s)) = ctx s.
Proof. split; [reflexivity | split; reflexivity]. Qed.

(** Initialisation always returns; it never ends the process. *)
Lemma memory_init_returns (tag : mem_alloc_type_t) (opt : MemAllocOption.t)
      (s : Machine W) :
  exists b s' t, wasm_runtime_memory_init tag opt s = Done b s' t.
Proof.
  run.
  destruct (tag =? Alloc_With_Pool).
  - cbn. step_call. destruct (nonnull a); cbn; eauto.
  - destruct (tag =? Alloc_With_Allocator).
    + destruct with_user_data; cbn;
        match goal with |- context [if ?c then _ else _] => destruct c end;
        cbn; eauto.
    + destruct (tag =? Alloc_With_System_Allocator); cbn; eauto.
Qed.

(** What a successful pool initialisation leaves in the statics. *)
Lemma init_pool_success (opt : MemAllocOption.t) (s s' : Machine W)
      (t : list event) :
  wasm_runtime_memory_init Alloc_With_Pool opt s = Done true s' t ->
  memory_mode (ctx s') = MEMORY_MODE_POOL /\
  global_pool_size (ctx s') =
    MemAllocOption.heap_size (MemAllocOption.pool opt) /\
  pool_allocator (ctx s') <> NULL /\
  pool_allocator (ctx s') =
    fst (Ext.mem_allocator_create
           (MemAllocOption.heap_buf (MemAllocOption.pool opt))
           (MemAllocOption.heap_size (MemAllocOption.pool opt)) (world s)).
Proof.
  run. step_call. unfold nonnull. destruct (a =? NULL) eqn:E; cbn.
  - discriminate.
  - intros H; inversion H; subst; clear H; cbn.
    apply Z.eqb_neq in E. repeat split; assumption.
Qed.

(** C4. After [wasm_runtime_memory_init] with [Alloc_With_Pool] has
    returned [true], [wasm_runtime_memory_pool_size] returns the
    [heap_size] that was passed; in a machine whose mode is not
    [MEMORY_MODE_POOL] it returns [UINT32_MAX].  Either way nothing else
    happens. *)
Theorem pool_size_reports_capacity :
  (forall (opt : MemAllocOption.t) (s s' : Machine W) (t : list event),
      wasm_runtime_memory_init Alloc_With_Pool opt s = Done true s' t ->
      wasm_runtime_memory_pool_size s' =
        Done (MemAllocOption.heap_size (MemAllocOption.pool opt)) s' [])
  /\
  (forall s : Machine W,
      memory_mode (ctx s) <> MEMORY_MODE_POOL ->
      wasm_runtime_memory_pool_size s = Done UINT32_MAX s []).
Proof.
  split.
  - intros opt s s' t Hinit.
    destruct (init_pool_success opt s s' t Hinit) as (Hmode & Hsize & _).
    run. rewrite Hmode. cbn. rewrite Hsize. reflexivity.
  - intros s Hmode. run.
    destruct (memory_mode (ctx s)); cbn; try reflexivity.
    contradiction Hmode; reflexivity.
Qed.

(** The test [_malloc_func && _free_func && _malloc_func != _free_func]. *)
Lemma allocator_check_true (m f : ptr) :
  nonnull m && nonnull f && negb (m =? f) = true <->
  m <> NULL /\ f <> NULL /\ m <> f.
Proof.
  unfold nonnull.
  rewrite !andb_true_iff, !negb_true_iff, !Z.eqb_neq. tauto.
Qed.

Lemma allocator_check_false (m f : ptr) :
  nonnull m && nonnull f && negb (m =? f) = false <->
  m = NULL \/ f = NULL \/ m = f.
Proof.
  unfold nonnull.
  rewrite !andb_false_iff, !negb_false_iff, !Z.eqb_eq. tauto.
Qed.

(** C5. [wasm_runtime_memory_init] with [Alloc_With_Allocator] returns
    [false] and leaves the whole machine as it was, calling no backend,
    when the allocate function is null, the release function is null, or
    the two are the same address.  Otherwise it returns [true] whatever the
    reallocate function is (null included), and the statics hold the mode
    [MEMORY_MODE_ALLOCATOR] and the three functions passed (and the user
    data in a build that has it). *)
Theorem custom_allocator_validation (opt : MemAllocOption.t) (s : Machine W) :
  let a := MemAllocOption.allocator opt in
  (MemAllocOption.malloc_func a = NULL \/
   MemAllocOption.free_func a = NULL \/
   MemAllocOption.malloc_func a = MemAllocOption.free_func a ->
   exists t,
     wasm_runtime_memory_init Alloc_With_Allocator opt s = Done false s t /\
     backend_calls t = [])
  /\
  (MemAllocOption.malloc_func a <> NULL ->
   MemAllocOption.free_func a <> NULL ->
   MemAllocOption.malloc_func a <> MemAllocOption.free_func a ->
   exists s',
     wasm_runtime_memory_init Alloc_With_Allocator opt s = Done true s' [] /\
     world s' = world s /\
     memory_mode (ctx s') = MEMORY_MODE_ALLOCATOR /\
     malloc_func (ctx s') = MemAllocOption.malloc_func a /\
     realloc_func (ctx s') = MemAllocOption.realloc_func a /\
     free_func (ctx s') = MemAllocOption.free_func a /\
     allocator_user_data (ctx s') =
       (if with_user_data then MemAllocOption.user_data a
        else allocator_user_data (ctx s)) /\
     pool_allocator (ctx s') = pool_allocator (ctx s) /\
     global_pool_size (ctx s') = global_pool_size (ctx s)).
Proof.
  intros a. split.
  - intros Hbad. apply allocator_check_false in Hbad.
    run. fold a. destruct with_user_data; rewrite Hbad; cbn;
      eexists; split; reflexivity.
  - intros Hm Hf Hd.
    assert (Hok := proj2 (allocator_check_true _ _) (conj Hm (conj Hf Hd))).
    run. fold a. destruct with_user_data; rewrite Hok; cbn;
      eexists; repeat split; reflexivity.
Qed.

(** A run of [wasm_runtime_memory_init] that returns [false] has not
    touched the statics. *)
Lemma failed_init_keeps_statics (tag : mem_alloc_type_t)
      (opt : MemAllocOption.t) (s s' : Machine W) (t : list event) :
  wasm_runtime_memory_init tag opt s = Done false s' t -> ctx s' = ctx s.
Proof.
  run.
  destruct (tag =? Alloc_With_Pool).
  - cbn. step_call. destruct (nonnull a); cbn; intros H; inversion H.
    reflexivity.
  - destruct (tag =? Alloc_With_Allocator).
    + destruct with_user_data; cbn;
        match goal with |- context [if ?c then _ else _] => destruct c end;
        cbn; intros H; inversion H; reflexivity.
    + destruct (tag =? Alloc_With_System_Allocator); cbn;
        intros H; inversion H; reflexivity.
Qed.

(** C6. [wasm_runtime_memory_init] always returns, and when it returns
    [false] the statics (mode, pool handle, user data, the three function
    pointers, recorded pool size) are what they were before the call.
    An unrecognised tag is such a failure, with no event at all; so is a
    pool whose engine could not be created. *)
Theorem init_commit_or_reject (tag : mem_alloc_type_t)
        (opt : MemAllocOption.t) (s : Machine W) :
  (exists b s' t, wasm_runtime_memory_init tag opt s = Done b s' t) /\
  (forall s' t,
      wasm_runtime_memory_init tag opt s = Done false s' t ->
      ctx s' = ctx s) /\
  (tag <> Alloc_With_Pool ->
   tag <> Alloc_With_Allocator ->
   tag <> Alloc_With_System_Allocator ->
   wasm_runtime_memory_init tag opt s = Done false s []) /\
  (tag = Alloc_With_Pool ->
   fst (Ext.mem_allocator_create
          (MemAllocOption.heap_buf (MemAllocOption.pool opt))
          (MemAllocOption.heap_size (MemAllocOption.pool opt))
          (world s)) = NULL ->
   exists s' t,
     wasm_runtime_memory_init tag opt s = Done false s' t /\ ctx s' = ctx s).
Proof.
  split; [apply memory_init_returns|].
  split; [intros s' t; apply failed_init_keeps_statics|].
  split.
  - intros H0 H1 H2. run.
    apply Z.eqb_neq in H0, H1, H2. rewrite H0, H1, H2. reflexivity.
  - intros -> Hnull. run. step_call. cbn in Hnull. subst a. cbn.
    do 2 eexists. split; reflexivity.
Qed.

(** C7, as the code has it.  Whenever [wasm_runtime_memory_destroy]
    returns, the mode is [MEMORY_MODE_UNKNOWN] and every other static
    (pool handle, user data, the three function pointers, recorded pool
    size) holds the value it held before.  It returns in every case but
    one: a build with [BH_ENABLE_GC_VERIFY], in pool mode, when the engine
    reports a leak; then the process ends with status -1.  After a
    successful pool initialisation and a destroy that returns,
    [wasm_runtime_memory_pool_size] returns [UINT32_MAX]. *)
Theorem destroy_resets_mode_only (s : Machine W) :
  (forall s' t,
      wasm_runtime_memory_destroy s = Done tt s' t ->
      memory_mode (ctx s') = MEMORY_MODE_UNKNOWN /\
      pool_allocator (ctx s') = pool_allocator (ctx s) /\
      allocator_user_data (ctx s') = allocator_user_data (ctx s) /\
      malloc_func (ctx s') = malloc_func (ctx s) /\
      realloc_func (ctx s') = realloc_func (ctx s) /\
      free_func (ctx s') = free_func (ctx s) /\
      global_pool_size (ctx s') = global_pool_size (ctx s) /\
      wasm_runtime_memory_pool_size s' = Done UINT32_MAX s' [])
  /\
  (gc_verify_off = true \/
   memory_mode (ctx s) <> MEMORY_MODE_POOL \/
   fst (Ext.mem_allocator_destroy (pool_allocator (ctx s)) (world s)) = 0 ->
   exists s' t, wasm_runtime_memory_destroy s = Done tt s' t)
  /\
  (gc_verify_off = false ->
   memory_mode (ctx s) = MEMORY_MODE_POOL ->
   fst (Ext.mem_allocator_destroy (pool_allocator (ctx s)) (world s)) <> 0 ->
   exists s' t,
     wasm_runtime_memory_destroy s = Exit (-1) s' t /\ ctx s' = ctx s)
  /\
  (forall opt s0 t0 s' t,
      wasm_runtime_memory_init Alloc_With_Pool opt s0 = Done true s t0 ->
      wasm_runtime_memory_destroy s = Done tt s' t ->
      wasm_runtime_memory_pool_size s' = Done UINT32_MAX s' []).
Proof.
  assert (Hret : forall s' t,
             wasm_runtime_memory_destroy s = Done tt s' t ->
             memory_mode (ctx s') = MEMORY_MODE_UNKNOWN /\
             pool_allocator (ctx s') = pool_allocator (ctx s) /\
             allocator_user_data (ctx s') = allocator_user_data (ctx s) /\
             malloc_func (ctx s') = malloc_func (ctx s) /\
             realloc_func (ctx s') = realloc_func (ctx s) /\
             free_func (ctx s') = free_func (ctx s) /\
             global_pool_size (ctx s') = global_pool_size (ctx s) /\
             wasm_runtime_memory_pool_size s' = Done UINT32_MAX s' []).
  { intros s' t. run.
    destruct (memory_mode (ctx s)); cbn;
      try (intros H; inversion H; subst; cbn; repeat split; reflexivity).
    destruct gc_verify_off; cbn; step_call.
    - intros H; inversion H; subst; cbn. repeat split; reflexivity.
    - destruct (a =? 0); cbn; intros H; inversion H; subst; cbn.
      repeat split; reflexivity. }
  split; [exact Hret|]. split; [|split].
  - intros Hcase. run.
    destruct (memory_mode (ctx s)) eqn:Hmode; cbn; eauto.
    destruct gc_verify_off eqn:Hgc; cbn.
    + step_call. eauto.
    + destruct Hcase as [Hgc'|[Hm|Hleak]];
        [discriminate | contradiction Hm; reflexivity |].
      step_call. cbn in Hleak. subst a. cbn. eauto.
  - intros Hgc Hmode Hleak. run. rewrite Hmode. cbn. rewrite Hgc. cbn.
    step_call. cbn in Hleak. apply Z.eqb_neq in Hleak. rewrite Hleak. cbn.
    do 2 eexists. split; reflexivity.
  - intros opt s0 t0 s' t _ Hd. apply (Hret s' t Hd).
Qed.

(** C8. In allocator mode with no reallocate function stored,
    [wasm_runtime_realloc] returns [NULL] for every pointer and size,
    with no event at all (so no call of the allocate or release function)
    and the machine unchanged.  That is the state a successful
    initialisation with a null [realloc_func] leaves. *)
Theorem realloc_without_realloc_func :
  (forall (s : Machine W) (p : ptr) (size : Z),
      memory_mode (ctx s) = MEMORY_MODE_ALLOCATOR ->
      realloc_func (ctx s) = NULL ->
      wasm_runtime_realloc p size s = Done NULL s [])
  /\
  (forall (opt : MemAllocOption.t) (s s' : Machine W) (t : list event)
          (p : ptr) (size : Z),
      MemAllocOption.realloc_func (MemAllocOption.allocator opt) = NULL ->
      wasm_runtime_memory_init Alloc_With_Allocator opt s = Done true s' t ->
      wasm_runtime_realloc p size s' = Done NULL s' []).
Proof.
  assert (Hnull : forall (s : Machine W) (p : ptr) (size : Z),
             memory_mode (ctx s) = MEMORY_MODE_ALLOCATOR ->
             realloc_func (ctx s) = NULL ->
             wasm_runtime_realloc p size s = Done NULL s []).
  { intros s p size Hmode Hre. run. rewrite Hmode. cbn. rewrite Hre.
    reflexivity. }
  split; [exact Hnull|].
  intros opt s s' t p size Hre Hinit.
  apply Hnull; revert Hinit; run;
    destruct with_user_data; cbn;
    match goal with |- context [if ?c then _ else _] => destruct c end;
    cbn; intros H; inversion H; subst; cbn; auto.
Qed.

(** Each public routing function returns and leaves the statics alone. *)
Lemma malloc_keeps_statics (size : Z) (s : Machine W) :
  exists p s' t, wasm_runtime_malloc size s = Done p s' t /\ ctx s' = ctx s.
Proof.
  unfold wasm_runtime_malloc, bind.
  destruct (size =? 0); cbn -[wasm_runtime_malloc_internal].
  - destruct (malloc_internal_runs 1 s) as (p & s' & t & -> & Hc & _). eauto.
  - destruct (malloc_internal_runs size s) as (p & s' & t & -> & Hc & _).
    eauto.
Qed.

Lemma realloc_keeps_statics (p : ptr) (size : Z) (s : Machine W) :
  exists q s' t,
    wasm_runtime_realloc p size s = Done q s' t /\ ctx s' = ctx s.
Proof.
  run. destruct (memory_mode (ctx s)); cbn.
  - eauto.
  - step_call. eauto.
  - destruct (nonnull (realloc_func (ctx s))); cbn; [|eauto].
    destruct with_user_data; cbn; step_call; eauto.
  - step_call. eauto.
Qed.

Lemma free_keeps_statics (p : ptr) (s : Machine W) :
  exists s' t, wasm_runtime_free p s = Done tt s' t /\ ctx s' = ctx s.
Proof.
  run. destruct (p =? NULL); cbn; [eauto|].
  destruct (memory_mode (ctx s)); cbn; eauto.
  destruct with_user_data; cbn; eauto.
Qed.

Lemma route_keeps_statics (r : request) (s : Machine W) :
  exists x s' t, route r s = Done x s' t /\ ctx s' = ctx s.
Proof.
  destruct r as [size|p size|p]; unfold route, bind, ret.
  - destruct (malloc_keeps_statics size s) as (q & s' & t & -> & Hc). eauto.
  - destruct (realloc_keeps_statics p size s) as (q & s' & t & -> & Hc).
    eauto.
  - destruct (free_keeps_statics p s) as (s' & t & -> & Hc). eauto.
Qed.

(** C9. Any sequence of allocate, reallocate and release requests, run
    from any machine, returns, and the statics after it (mode, pool
    handle, user data, function pointers, recorded pool size) are the
    statics before it. *)
Theorem routing_keeps_statics (rs : list request) (s : Machine W) :
  exists out s' t,
    route_all rs s = Done out s' t /\
    ctx s' = ctx s /\
    memory_mode (ctx s') = memory_mode (ctx s) /\
    List.length out = List.length rs.
Proof.
  revert s. induction rs as [|r rs IH]; intros s.
  - exists [], s, []. repeat split.
  - cbn [route_all]. unfold bind at 1.
    destruct (route_keeps_statics r s) as (x & s1 & t1 & -> & H1).
    unfold bind at 1.
    destruct (IH s1) as (out & s2 & t2 & -> & H2 & _ & Hlen).
    unfold ret. do 3 eexists. split; [reflexivity|].
    assert (Hctx : ctx s2 = ctx s) by congruence.
    repeat split; [exact Hctx | rewrite Hctx; reflexivity | cbn; congruence].
Qed.

(** C10. [wasm_runtime_realloc] hands the size it was given to the
    backend: with size 0, the pool engine, the stored reallocate function
    (when there is one) and the platform allocator are each called with
    size 0, and what they return is returned.  No diagnostic is
    emitted and the statics are kept. *)
Theorem realloc_zero_reaches_backend (p : ptr) (s : Machine W) :
  let g := ctx s in
  let ud := if with_user_data then Some (allocator_user_data g) else None in
  (memory_mode g = MEMORY_MODE_POOL ->
   let r := Ext.mem_allocator_realloc (pool_allocator g) p 0 (world s) in
   wasm_runtime_realloc p 0 s =
     Done (fst r) {| ctx := g; world := snd r |}
          [Invoke (Pool_realloc (pool_allocator g) p 0)])
  /\
  (memory_mode g = MEMORY_MODE_ALLOCATOR ->
   realloc_func g <> NULL ->
   let r := Ext.indirect_realloc (realloc_func g) ud p 0 (world s) in
   wasm_runtime_realloc p 0 s =
     Done (fst r) {| ctx := g; world := snd r |}
          [Invoke (Fn_realloc (realloc_func g) ud p 0)])
  /\
  (memory_mode g = MEMORY_MODE_SYSTEM_ALLOCATOR ->
   let r := Ext.os_realloc p 0 (world s) in
   wasm_runtime_realloc p 0 s =
     Done (fst r) {| ctx := g; world := snd r |} [Invoke (Os_realloc p 0)]).
Proof.
  intros g ud. subst g ud. repeat split.
  - intros Hmode. run. rewrite Hmode. cbn. step_call. reflexivity.
  - intros Hmode Hre. run. rewrite Hmode. cbn.
    unfold nonnull. apply Z.eqb_neq in Hre. rewrite Hre. cbn.
    destruct with_user_data; cbn; step_call; reflexivity.
  - intros Hmode. run. rewrite Hmode. cbn. step_call. reflexivity.
Qed.

End Properties.

(** ** Concrete runs *)

Example pooled_statics :
  ctx Demo.pooled =
    {| memory_mode := MEMORY_MODE_POOL;
       pool_allocator := 65536;
       allocator_user_data := NULL;
       malloc_func := NULL;
       realloc_func := NULL;
       free_func := NULL;
       global_pool_size := 1024 |}.
Proof. reflexivity. Qed.

Example custom_statics :
  ctx Demo.custom =
    {| memory_mode := MEMORY_MODE_ALLOCATOR;
       pool_allocator := NULL;
       allocator_user_data := NULL;
       malloc_func := 100;
       realloc_func := 300;
       free_func := 200;
       global_pool_size := 0 |}.
Proof. reflexivity. Qed.

Example system_allocate_then_release :
  (wasm_runtime_malloc (build := Demo.plain_build) 64 ;;
   wasm_runtime_malloc (build := Demo.plain_build) 0)%facade Demo.system
  = Done 4160
         {| ctx := ctx Demo.system;
            world := {| Demo.brk := 4161; Demo.live := 2 |} |}
         [Invoke (Os_malloc 64);
          Warning "warning: wasm_runtime_malloc with size zero\n";
          Invoke (Os_malloc 1)]
  /\
  wasm_runtime_free (build := Demo.plain_build) 4096
    (Demo.after (wasm_runtime_malloc (build := Demo.plain_build) 64)
                Demo.system)
  = Done tt
         {| ctx := ctx Demo.system;
            world := {| Demo.brk := 4160; Demo.live := 0 |} |}
         [Invoke (Os_free 4096)].
Proof. split; reflexivity. Qed.

Example custom_calls_with_user_data :
  events_of
    (wasm_runtime_malloc (build := Demo.verify_build) 0
       (Demo.after
          (wasm_runtime_memory_init (build := Demo.verify_build)
             Alloc_With_Allocator (Demo.allocator_option 100 300 200 7))
          Demo.fresh))
  = [Warning "warning: wasm_runtime_malloc with size zero\n";
     Invoke (Fn_malloc 100 (Some 7) 1)].
Proof. reflexivity. Qed.

(** ** Instances of the theorems on the concrete platform *)

Lemma uninitialized_requests_yield_null_witness :
  memory_mode (ctx Demo.fresh) = MEMORY_MODE_UNKNOWN /\
  (exists t,
      wasm_runtime_malloc (build := Demo.plain_build) 0 Demo.fresh =
        Done NULL Demo.fresh t /\ backend_calls t = []) /\
  wasm_runtime_realloc (build := Demo.plain_build) 4096 16 Demo.fresh =
    Done NULL Demo.fresh
         [Warning
            "wasm_runtime_realloc failed: memory hasn't been initialize.\n"].
Proof.
  destruct (uninitialized_requests_yield_null
              (build := Demo.plain_build) Demo.fresh eq_refl) as [Hm Hr].
  split; [reflexivity|]. split.
  - destruct (Hm 0) as (t & H1 & H2 & _). exists t. split; assumption.
  - apply (Hr 4096 16).
Defined.

(** The same after an initialisation and a destroy. *)
Example destroyed_pool_yields_null :
  wasm_runtime_malloc (build := Demo.plain_build) 64
    (Demo.after (wasm_runtime_memory_destroy (build := Demo.plain_build))
                Demo.pooled)
  = Done NULL
         (Demo.after (wasm_runtime_memory_destroy (build := Demo.plain_build))
                     Demo.pooled)
         [Warning
            "wasm_runtime_malloc failed: memory hasn't been initialize.\n"].
Proof. reflexivity. Qed.

Lemma pool_size_reports_capacity_witness :
  wasm_runtime_memory_init (build := Demo.plain_build) Alloc_With_Pool
    (Demo.pool_option 65536 1024) Demo.fresh =
    Done true Demo.pooled [Invoke (Pool_create 65536 1024)] /\
  wasm_runtime_memory_pool_size Demo.pooled = Done 1024 Demo.pooled [] /\
  memory_mode (ctx Demo.custom) <> MEMORY_MODE_POOL /\
  wasm_runtime_memory_pool_size Demo.custom = Done UINT32_MAX Demo.custom [].
Proof.
  split; [reflexivity|]. split; [|split].
  - apply (proj1 (pool_size_reports_capacity (build := Demo.plain_build))
                 (Demo.pool_option 65536 1024) Demo.fresh Demo.pooled
                 [Invoke (Pool_create 65536 1024)]).
    reflexivity.
  - vm_compute. discriminate.
  - apply (proj2 (pool_size_reports_capacity (build := Demo.plain_build))).
    vm_compute. discriminate.
Defined.

Lemma custom_allocator_validation_witness :
  (exists t,
      wasm_runtime_memory_init (build := Demo.plain_build)
        Alloc_With_Allocator (Demo.allocator_option 100 300 100 7) Demo.pooled
      = Done false Demo.pooled t /\ backend_calls t = []) /\
  (exists s',
      wasm_runtime_memory_init (build := Demo.plain_build)
        Alloc_With_Allocator (Demo.allocator_option 100 NULL 200 7) Demo.fresh
      = Done true s' [] /\
      memory_mode (ctx s') = MEMORY_MODE_ALLOCATOR /\
      realloc_func (ctx s') = NULL).
Proof.
  split.
  - apply (proj1 (custom_allocator_validation (build := Demo.plain_build)
                    (Demo.allocator_option 100 300 100 7) Demo.pooled)).
    right; right; reflexivity.
  - destruct (proj2 (custom_allocator_validation (build := Demo.plain_build)
                       (Demo.allocator_option 100 NULL 200 7) Demo.fresh))
      as (s' & Hrun & _ & Hmode & _ & Hre & _);
      [vm_compute; discriminate | vm_compute; discriminate
       | vm_compute; discriminate |].
    exists s'. repeat split; assumption.
Defined.

Lemma init_commit_or_reject_witness :
  wasm_runtime_memory_init (build := Demo.plain_build) Alloc_With_Pool
    (Demo.pool_option 65536 8) Demo.custom =
    Done false Demo.custom
         [Invoke (Pool_create 65536 8);
          Error "Init memory with pool (%p, %u) failed.\n" [65536; 8]] /\
  ctx Demo.custom = ctx Demo.custom /\
  wasm_runtime_memory_init (build := Demo.plain_build) 7
    (Demo.pool_option 65536 1024) Demo.custom = Done false Demo.custom [].
Proof.
  split; [reflexivity|]. split.
  - apply (proj1 (proj2 (init_commit_or_reject (build := Demo.plain_build)
                           Alloc_With_Pool (Demo.pool_option 65536 8)
                           Demo.custom))
                 Demo.custom
                 [Invoke (Pool_create 65536 8);
                  Error "Init memory with pool (%p, %u) failed.\n"
                        [65536; 8]]).
    reflexivity.
  - apply (proj1 (proj2 (proj2 (init_commit_or_reject
                                  (build := Demo.plain_build) 7
                                  (Demo.pool_option 65536 1024)
                                  Demo.custom))));
      vm_compute; discriminate.
Defined.

(** C7 as the spec words it fails: after a destroy that returns, the pool
    handle and the recorded size are still there, and so are the function
    pointers of a custom allocator; and in a build with leak verification
    a destroy of a pool with a live block does not return at all. *)
Lemma destroy_does_not_clear_statics :
  (exists s',
      wasm_runtime_memory_destroy (build := Demo.plain_build) Demo.pooled =
        Done tt s' [Invoke (Pool_destroy 65536)] /\
      memory_mode (ctx s') = MEMORY_MODE_UNKNOWN /\
      pool_allocator (ctx s') = 65536 /\
      pool_allocator (ctx s') <> NULL /\
      global_pool_size (ctx s') = 1024) /\
  (exists s',
      wasm_runtime_memory_destroy (build := Demo.plain_build) Demo.custom =
        Done tt s' [] /\
      memory_mode (ctx s') = MEMORY_MODE_UNKNOWN /\
      malloc_func (ctx s') = 100 /\ malloc_func (ctx s') <> NULL /\
      realloc_func (ctx s') = 300 /\ realloc_func (ctx s') <> NULL /\
      free_func (ctx s') = 200 /\ free_func (ctx s') <> NULL) /\
  (memory_mode (ctx Demo.leaky) = MEMORY_MODE_POOL /\
   wasm_runtime_memory_destroy (build := Demo.verify_build) Demo.leaky =
     Exit (-1) Demo.leaky [Invoke (Pool_destroy 65536)]).
Proof.
  split; [|split].
  - eexists. split; [reflexivity|]. cbn.
    repeat split; try reflexivity; discriminate.
  - eexists. split; [reflexivity|]. cbn.
    repeat split; try reflexivity; discriminate.
  - split; reflexivity.
Qed.

Lemma destroy_resets_mode_only_witness :
  (exists s' t,
      wasm_runtime_memory_destroy (build := Demo.plain_build) Demo.pooled =
        Done tt s' t /\
      memory_mode (ctx s') = MEMORY_MODE_UNKNOWN /\
      pool_allocator (ctx s') = pool_allocator (ctx Demo.pooled) /\
      global_pool_size (ctx s') = global_pool_size (ctx Demo.pooled) /\
      wasm_runtime_memory_pool_size s' = Done UINT32_MAX s' []) /\
  (exists s' t,
      wasm_runtime_memory_destroy (build := Demo.verify_build) Demo.leaky =
        Exit (-1) s' t /\ ctx s' = ctx Demo.leaky).
Proof.
  split.
  - destruct (proj1 (proj2 (destroy_resets_mode_only
                              (build := Demo.plain_build) Demo.pooled)))
      as (s' & t & Hrun); [left; reflexivity|].
    destruct (proj1 (destroy_resets_mode_only
                       (build := Demo.plain_build) Demo.pooled) s' t Hrun)
      as (Hm & Hp & _ & _ & _ & _ & Hs & Hq).
    exists s', t. repeat split; assumption.
  - apply (proj1 (proj2 (proj2 (destroy_resets_mode_only
                                  (build := Demo.verify_build) Demo.leaky)))).
    + reflexivity.
    + reflexivity.
    + vm_compute. discriminate.
Defined.

Lemma realloc_without_realloc_func_witness :
  memory_mode (ctx Demo.custom_no_realloc) = MEMORY_MODE_ALLOCATOR /\
  realloc_func (ctx Demo.custom_no_realloc) = NULL /\
  wasm_runtime_realloc (build := Demo.plain_build) 4096 128
    Demo.custom_no_realloc = Done NULL Demo.custom_no_realloc [].
Proof.
  split; [reflexivity|]. split; [reflexivity|].
  apply (proj1 (realloc_without_realloc_func (build := Demo.plain_build))
               Demo.custom_no_realloc 4096 128); reflexivity.
Defined.

Lemma realloc_zero_reaches_backend_witness :
  backend_calls
    (events_of (wasm_runtime_realloc (build := Demo.plain_build) 4096 0
                  Demo.pooled)) = [Pool_realloc 65536 4096 0] /\
  backend_calls
    (events_of (wasm_runtime_realloc (build := Demo.plain_build) 4096 0
                  Demo.custom)) = [Fn_realloc 300 None 4096 0] /\
  backend_calls
    (events_of (wasm_runtime_realloc (build := Demo.plain_build) 4096 0
                  Demo.system)) = [Os_realloc 4096 0].
Proof.
  split; [|split].
  - rewrite (proj1 (realloc_zero_reaches_backend
                      (build := Demo.plain_build) 4096 Demo.pooled) eq_refl).
    reflexivity.
  - rewrite (proj1 (proj2 (realloc_zero_reaches_backend
                             (build := Demo.plain_build) 4096 Demo.custom))
                   eq_refl);
      [reflexivity | vm_compute; discriminate].
  - rewrite (proj2 (proj2 (realloc_zero_reaches_backend
                             (build := Demo.plain_build) 4096 Demo.system))
                   eq_refl).
    reflexivity.
Defined.

(** * Properties of whole runs *)

#[local] Hint Unfold perform route : facade.

Lemma backend_calls_app (t1 t2 : list event) :
  backend_calls (t1 ++ t2) = backend_calls t1 ++ backend_calls t2.
Proof.
  induction t1 as [|e t1 IH]; cbn; [reflexivity|].
  destruct e; cbn; rewrite IH; reflexivity.
Qed.

(** Split the test at the head of the goal. *)
Ltac split_if :=
  match goal with
  | |- context [if ?c then _ else _] => destruct c eqn:?; cbn
  end.

Section Runs.

Context {W : Type} {platform : Ext.Platform W} {build : BuildConfig}.

Lemma init_sound (tag : mem_alloc_type_t) (opt : MemAllocOption.t)
      (s : Machine W) :
  well_formed (ctx s) = true ->
  well_formed (ctx (machine_of (wasm_runtime_memory_init tag opt s))) = true /\
  forallb call_ok
          (backend_calls (events_of (wasm_runtime_memory_init tag opt s)))
    = true.
Proof.
  intros Hwf. run.
  destruct (tag =? Alloc_With_Pool); cbn.
  - step_call. destruct (nonnull a) eqn:Ha; cbn; split; auto.
  - destruct (tag =? Alloc_With_Allocator); cbn.
    + destruct with_user_data; cbn; split_if; split; auto.
    + destruct (tag =? Alloc_With_System_Allocator); cbn; split; auto.
Qed.

Lemma destroy_sound (s : Machine W) :
  well_formed (ctx s) = true ->
  well_formed (ctx (machine_of (wasm_runtime_memory_destroy s))) = true /\
  forallb call_ok (backend_calls (events_of (wasm_runtime_memory_destroy s)))
    = true.
Proof.
  unfold well_formed. run.
  destruct (memory_mode (ctx s)) eqn:Hmode; cbn; intros Hwf; auto.
  destruct gc_verify_off; cbn; step_call.
  - rewrite Hwf. auto.
  - destruct (a =? 0); cbn; rewrite ?Hmode, Hwf; auto.
Qed.

Lemma route_sound (r : request) (s : Machine W) :
  well_formed (ctx s) = true ->
  ctx (machine_of (route r s)) = ctx s /\
  forallb call_ok (backend_calls (events_of (route r s))) = true.
Proof.
  unfold well_formed. intros Hwf.
  destruct r as [size|p size|p]; run.
  - destruct (size =? 0); cbn;
      destruct (memory_mode (ctx s)); cbn; auto;
      try (step_call; rewrite ?Hwf; auto; fail);
      apply andb_prop in Hwf as [Hwf _]; apply andb_prop in Hwf as [Hm _];
      destruct with_user_data; cbn; step_call; rewrite Hm; auto.
  - destruct (memory_mode (ctx s)); cbn; auto;
      try (step_call; rewrite ?Hwf; auto; fail).
    destruct (nonnull (realloc_func (ctx s))) eqn:Hre; cbn; auto.
    destruct with_user_data; cbn; step_call; rewrite Hre; auto.
  - destruct (p =? NULL); cbn; auto.
    destruct (memory_mode (ctx s)); cbn; rewrite ?Hwf; auto.
    apply andb_prop in Hwf as [Hwf _]; apply andb_prop in Hwf as [_ Hf].
    destruct with_user_data; cbn; rewrite Hf; auto.
Qed.

Lemma perform_sound (a : api) (s : Machine W) :
  well_formed (ctx s) = true ->
  well_formed (ctx (machine_of (perform a s))) = true /\
  forallb call_ok (backend_calls (events_of (perform a s))) = true.
Proof.
  intros Hwf. destruct a as [tag opt| | |info|r]; unfold perform.
  - destruct (init_sound tag opt s Hwf) as [H1 H2]. unfold bind, ret.
    destruct (wasm_runtime_memory_init tag opt s); cbn in *;
      rewrite ?app_nil_r; auto.
  - apply destroy_sound, Hwf.
  - run. destruct (memory_mode (ctx s)); cbn; auto.
  - revert Hwf. unfold well_formed. run.
    destruct (memory_mode (ctx s)) eqn:Hmode; cbn; intros Hwf;
      rewrite ?Hmode; auto.
    step_call. rewrite Hmode, Hwf. auto.
  - destruct (route_sound r s Hwf) as [H1 H2]. unfold bind, ret.
    destruct (route r s); cbn in *; rewrite ?app_nil_r, ?H1; auto.
Qed.

(** From statics that are usable in their mode, any sequence of calls of
    the public functions leaves statics that are usable in their mode,
    and no call made on the way hands a null handle to the pool engine or
    goes through a null function pointer.  This holds whether the run
    returns or ends in [exit]. *)
Theorem runs_keep_statics_usable (ops : list api) (s : Machine W) :
  well_formed (ctx s) = true ->
  well_formed (ctx (machine_of (perform_all ops s))) = true /\
  forallb call_ok (backend_calls (events_of (perform_all ops s))) = true.
Proof.
  revert s. induction ops as [|a ops IH]; intros s Hwf.
  - cbn. auto.
  - cbn [perform_all]. unfold bind.
    destruct (perform_sound a s Hwf) as [H1 H2].
    destruct (perform a s) as [u s1 t1|c s1 t1]; cbn in H1, H2.
    + destruct (IH s1 H1) as [H3 H4].
      destruct (perform_all ops s1) as [u2 s2 t2|c s2 t2]; cbn in *;
        rewrite backend_calls_app, forallb_app, H2, H4; auto.
    + cbn. auto.
Qed.

(** *** Sequences of routed requests *)

Lemma route_all_returns (rs : list request) (s : Machine W) :
  exists out s' t, route_all rs s = Done out s' t /\ ctx s' = ctx s.
Proof.
  revert s. induction rs as [|r rs IH]; intros s.
  - exists [], s, []. split; reflexivity.
  - cbn [route_all]. unfold bind at 1.
    destruct (route_keeps_statics r s) as (x & s1 & t1 & -> & H1).
    unfold bind at 1.
    destruct (IH s1) as (out & s2 & t2 & -> & H2).
    unfold ret. do 3 eexists. split; [reflexivity | congruence].
Qed.

(** A sequence is its first request followed by the rest, run from the
    machine the first one leaves. *)
Lemma route_all_cons (r : request) (rs : list request) (s : Machine W) :
  exists x s1 t1 out s2 t2,
    route r s = Done x s1 t1 /\ ctx s1 = ctx s /\
    route_all rs s1 = Done out s2 t2 /\
    route_all (r :: rs) s = Done (x :: out) s2 (t1 ++ t2).
Proof.
  destruct (route_keeps_statics r s) as (x & s1 & t1 & Hr & H1).
  destruct (route_all_returns rs s1) as (out & s2 & t2 & Hrs & H2).
  exists x, s1, t1, out, s2, t2. repeat split; try assumption.
  cbn [route_all]. unfold bind, ret. rewrite Hr, Hrs, app_nil_r. reflexivity.
Qed.

(** A property of the calls of one request that survives concatenation
    holds of the calls of a sequence. *)
Lemma route_all_calls (P : Globals -> list call -> Prop) :
  (forall g, P g []) ->
  (forall g c1 c2, P g c1 -> P g c2 -> P g (c1 ++ c2)) ->
  (forall r (s : Machine W), P (ctx s) (backend_calls (events_of (route r s)))) ->
  forall rs (s : Machine W),
    P (ctx s) (backend_calls (events_of (route_all rs s))).
Proof.
  intros Hnil Happ Hone rs. induction rs as [|r rs IH]; intros s.
  - cbn. apply Hnil.
  - destruct (route_all_cons r rs s)
      as (x & s1 & t1 & out & s2 & t2 & Hr & H1 & Hrs & ->).
    cbn [events_of]. rewrite backend_calls_app. apply Happ.
    + specialize (Hone r s). rewrite Hr in Hone. exact Hone.
    + specialize (IH s1). rewrite Hrs, H1 in IH. exact IH.
Qed.

Lemma route_on_active_backend (r : request) (s : Machine W) :
  on_active_backend (ctx s) (backend_calls (events_of (route r s))).
Proof.
  unfold on_active_backend, stored_user_data.
  destruct r as [size|p size|p]; run.
  - destruct (size =? 0); cbn; destruct (memory_mode (ctx s)); cbn; auto;
      try destruct with_user_data; cbn; try step_call;
      repeat constructor.
  - destruct (memory_mode (ctx s)); cbn; auto;
      try (step_call; repeat constructor; fail).
    destruct (nonnull (realloc_func (ctx s))); cbn; [|constructor].
    destruct with_user_data; cbn; step_call; repeat constructor.
  - destruct (p =? NULL); cbn;
      destruct (memory_mode (ctx s)); cbn; auto;
      try destruct with_user_data; cbn; repeat constructor.
Qed.

Lemma route_all_on_active_backend (rs : list request) (s : Machine W) :
  on_active_backend (ctx s) (backend_calls (events_of (route_all rs s))).
Proof.
  apply route_all_calls with (P := on_active_backend).
  - intros g. unfold on_active_backend.
    destruct (memory_mode g); constructor.
  - intros g c1 c2. unfold on_active_backend.
    destruct (memory_mode g); intros H1 H2;
      [subst; reflexivity | apply Forall_app; auto ..].
  - apply route_on_active_backend.
Qed.

(** Every backend call made by a sequence of requests goes to the backend
    the mode names, with the handle or the function the statics hold at
    the start: the pool engine on [pool_allocator] in pool mode, the
    stored functions (allocate for an allocation, reallocate for a
    reallocation, release for a release) in allocator mode, the platform
    allocator in system mode, and nothing at all before initialisation. *)
Theorem requests_reach_only_active_backend (rs : list request)
        (s : Machine W) :
  match memory_mode (ctx s) with
  | MEMORY_MODE_UNKNOWN =>
      backend_calls (events_of (route_all rs s)) = []
  | MEMORY_MODE_POOL =>
      Forall (pool_call_on (pool_allocator (ctx s)))
             (backend_calls (events_of (route_all rs s)))
  | MEMORY_MODE_ALLOCATOR =>
      Forall (custom_call_with (malloc_func (ctx s)) (realloc_func (ctx s))
                               (free_func (ctx s)) (stored_user_data (ctx s)))
             (backend_calls (events_of (route_all rs s)))
  | MEMORY_MODE_SYSTEM_ALLOCATOR =>
      Forall os_call (backend_calls (events_of (route_all rs s)))
  end.
Proof. exact (route_all_on_active_backend rs s). Qed.

Lemma route_uninitialized (r : request) (s : Machine W) :
  memory_mode (ctx s) = MEMORY_MODE_UNKNOWN ->
  exists x t,
    route r s = Done x s t /\ backend_calls t = [] /\
    (x = None \/ x = Some NULL).
Proof.
  intros Hmode. destruct r as [size|p size|p]; run.
  - destruct (size =? 0); cbn; rewrite Hmode; cbn;
      do 2 eexists; repeat split; auto.
  - rewrite Hmode; cbn. do 2 eexists; repeat split; auto.
  - destruct (p =? NULL); cbn; rewrite ?Hmode; cbn;
      do 2 eexists; repeat split; auto.
Qed.

(** While the mode is [MEMORY_MODE_UNKNOWN], a whole sequence of requests
    is inert: it returns, the machine (statics and outside world) is what
    it was, no backend is called, and every allocation and reallocation
    yields [NULL].  A release is dropped whether its pointer is null or
    not. *)
Theorem uninitialized_sequence_is_inert (rs : list request) (s : Machine W) :
  memory_mode (ctx s) = MEMORY_MODE_UNKNOWN ->
  exists out t,
    route_all rs s = Done out s t /\
    backend_calls t = [] /\
    Forall (fun x => x = None \/ x = Some NULL) out.
Proof.
  intros Hmode. induction rs as [|r rs IH].
  - exists [], []. repeat split. constructor.
  - destruct (route_uninitialized r s Hmode) as (x & t1 & Hr & Hc1 & Hx).
    destruct IH as (out & t2 & Hrs & Hc2 & Hout).
    exists (x :: out), (t1 ++ t2). repeat split.
    + cbn [route_all]. unfold bind, ret.
      rewrite Hr, Hrs, app_nil_r. reflexivity.
    + rewrite backend_calls_app, Hc1, Hc2. reflexivity.
    + constructor; assumption.
Qed.

(** What a successful allocator initialisation leaves in the statics. *)
Lemma init_allocator_success (opt : MemAllocOption.t) (s s' : Machine W)
      (t : list event) :
  wasm_runtime_memory_init Alloc_With_Allocator opt s = Done true s' t ->
  memory_mode (ctx s') = MEMORY_MODE_ALLOCATOR /\
  malloc_func (ctx s') =
    MemAllocOption.malloc_func (MemAllocOption.allocator opt) /\
  realloc_func (ctx s') =
    MemAllocOption.realloc_func (MemAllocOption.allocator opt) /\
  free_func (ctx s') =
    MemAllocOption.free_func (MemAllocOption.allocator opt) /\
  stored_user_data (ctx s') =
    (if with_user_data
     then Some (MemAllocOption.user_data (MemAllocOption.allocator opt))
     else None).
Proof.
  unfold stored_user_data. run.
  destruct with_user_data; cbn; split_if;
    intros H; inversion H; subst; cbn; repeat split.
Qed.

Lemma init_system_success (opt : MemAllocOption.t) (s s' : Machine W)
      (t : list event) :
  wasm_runtime_memory_init Alloc_With_System_Allocator opt s = Done true s' t ->
  memory_mode (ctx s') = MEMORY_MODE_SYSTEM_ALLOCATOR.
Proof. run. intros H; inversion H; reflexivity. Qed.

(** The backend chosen by a successful initialisation is the target of
    every later request.  After a pool initialisation, each backend call
    of any request sequence is a pool request on the handle
    [mem_allocator_create] returned; after an allocator initialisation,
    each is a call through the function passed for that operation, with
    the user data passed (in a build that has it); after a system
    initialisation, each is a call of the platform allocator. *)
Theorem initialised_backend_serves_requests (opt : MemAllocOption.t)
        (s s1 : Machine W) (t1 : list event) (rs : list request) :
  let a := MemAllocOption.allocator opt in
  let p := MemAllocOption.pool opt in
  (wasm_runtime_memory_init Alloc_With_Pool opt s = Done true s1 t1 ->
   Forall (pool_call_on
             (fst (Ext.mem_allocator_create (MemAllocOption.heap_buf p)
                     (MemAllocOption.heap_size p) (world s))))
          (backend_calls (events_of (route_all rs s1))))
  /\
  (wasm_runtime_memory_init Alloc_With_Allocator opt s = Done true s1 t1 ->
   Forall (custom_call_with
             (MemAllocOption.malloc_func a) (MemAllocOption.realloc_func a)
             (MemAllocOption.free_func a)
             (if with_user_data then Some (MemAllocOption.user_data a)
              else None))
          (backend_calls (events_of (route_all rs s1))))
  /\
  (wasm_runtime_memory_init Alloc_With_System_Allocator opt s
     = Done true s1 t1 ->
   Forall os_call (backend_calls (events_of (route_all rs s1)))).
Proof.
  intros a p. pose proof (route_all_on_active_backend rs s1) as H.
  unfold on_active_backend in H. repeat split; intros Hinit.
  - destruct (init_pool_success opt s s1 t1 Hinit) as (Hm & _ & _ & Hh).
    rewrite Hm, Hh in H. exact H.
  - destruct (init_allocator_success opt s s1 t1 Hinit)
      as (Hm & H1 & H2 & H3 & H4).
    rewrite Hm, H1, H2, H3, H4 in H. exact H.
  - rewrite (init_system_success opt s s1 t1 Hinit) in H. exact H.
Qed.

Lemma route_call_count (r : request) (s : Machine W) :
  List.length (backend_calls (events_of (route r s))) =
    if forwarded (ctx s) r then 1%nat else 0%nat.
Proof.
  unfold forwarded, nonnull. destruct r as [size|p size|p]; run.
  - destruct (size =? 0); cbn; destruct (memory_mode (ctx s)); cbn; auto;
      try destruct with_user_data; cbn; try step_call; reflexivity.
  - destruct (memory_mode (ctx s)); cbn; auto;
      try (step_call; reflexivity).
    unfold nonnull. destruct (realloc_func (ctx s) =? NULL); cbn;
      [reflexivity|].
    destruct with_user_data; cbn; step_call; reflexivity.
  - destruct (p =? NULL); cbn;
      destruct (memory_mode (ctx s)); cbn; auto;
      try destruct with_user_data; cbn; reflexivity.
Qed.

(** A sequence of requests makes exactly one backend call for each
    request that is forwarded, and none for the others; so never more
    calls than requests: nothing is retried, and a reallocation is never
    emulated by an allocation and a release. *)
Theorem one_backend_call_per_forwarded_request (rs : list request)
        (s : Machine W) :
  List.length (backend_calls (events_of (route_all rs s))) =
    List.length (filter (forwarded (ctx s)) rs) /\
  (List.length (backend_calls (events_of (route_all rs s)))
   <= List.length rs)%nat.
Proof.
  assert (Heq : forall rs (s : Machine W),
             List.length (backend_calls (events_of (route_all rs s))) =
             List.length (filter (forwarded (ctx s)) rs)).
  { clear rs s. intros rs. induction rs as [|r rs IH]; intros s.
    - reflexivity.
    - destruct (route_all_cons r rs s)
        as (x & s1 & t1 & out & s2 & t2 & Hr & H1 & Hrs & ->).
      cbn [events_of filter]. rewrite backend_calls_app, length_app.
      pose proof (route_call_count r s) as Hone. rewrite Hr in Hone.
      cbn [events_of] in Hone. rewrite Hone.
      specialize (IH s1). rewrite Hrs, H1 in IH. cbn [events_of] in IH.
      rewrite IH. destruct (forwarded (ctx s) r); reflexivity. }
  split; [apply Heq|]. rewrite Heq. apply filter_length_le.
Qed.

Lemma route_allocates_nonzero (r : request) (s : Machine W) :
  Forall (fun c => allocate_size c <> Some 0)
         (backend_calls (events_of (route r s))).
Proof.
  destruct r as [size|p size|p]; run.
  - destruct (size =? 0) eqn:Hz; cbn;
      destruct (memory_mode (ctx s)); cbn;
      try destruct with_user_data; cbn; try step_call;
      repeat constructor; cbn; try discriminate;
      apply Z.eqb_neq in Hz; congruence.
  - destruct (memory_mode (ctx s)); cbn;
      try (step_call; repeat constructor; discriminate);
      try constructor.
    destruct (nonnull (realloc_func (ctx s))); cbn; [|constructor].
    destruct with_user_data; cbn; step_call;
      repeat constructor; discriminate.
  - destruct (p =? NULL); cbn;
      destruct (memory_mode (ctx s)); cbn;
      try destruct with_user_data; cbn;
      repeat constructor; discriminate.
Qed.

(** No allocate operation of any backend is ever asked for zero bytes,
    whatever sizes the requests of a sequence carry. *)
Theorem allocate_calls_never_zero (rs : list request) (s : Machine W) :
  Forall (fun c => allocate_size c <> Some 0)
         (backend_calls (events_of (route_all rs s))).
Proof.
  apply route_all_calls
    with (P := fun _ cs => Forall (fun c => allocate_size c <> Some 0) cs).
  - intros _. constructor.
  - intros _ c1 c2 H1 H2. apply Forall_app; auto.
  - apply route_allocates_nonzero.
Qed.

(** *** The lifecycle *)

Lemma with_memory_mode_same (g : Globals) :
  with_memory_mode (memory_mode g) g = g.
Proof. destruct g; reflexivity. Qed.

Lemma destroy_uninitialized (s : Machine W) :
  memory_mode (ctx s) = MEMORY_MODE_UNKNOWN ->
  wasm_runtime_memory_destroy s = Done tt s [].
Proof.
  intros Hmode. run. rewrite Hmode. cbn.
  rewrite <- Hmode, with_memory_mode_same. destruct s; reflexivity.
Qed.

(** The pool engine is destroyed by the first destroy only: a destroy
    calls [mem_allocator_destroy], once and on the stored handle, exactly
    when the mode is [MEMORY_MODE_POOL] (it never calls a release function
    or the platform allocator), and a destroy that follows one that
    returned does nothing at all. *)
Theorem engine_destroyed_once (s : Machine W) :
  backend_calls (events_of (wasm_runtime_memory_destroy s)) =
    match memory_mode (ctx s) with
    | MEMORY_MODE_POOL => [Pool_destroy (pool_allocator (ctx s))]
    | _ => []
    end
  /\
  (forall s1 t1,
      wasm_runtime_memory_destroy s = Done tt s1 t1 ->
      wasm_runtime_memory_destroy s1 = Done tt s1 []).
Proof.
  split.
  - run. destruct (memory_mode (ctx s)); cbn; try reflexivity.
    destruct gc_verify_off; cbn; step_call; [reflexivity|].
    destruct (a =? 0); reflexivity.
  - intros s1 t1 Hd. apply destroy_uninitialized.
    apply (mode_after_destroy s s1 t1 Hd).
Qed.

(** Allocation statistics come from the pool engine only: in pool mode
    [wasm_runtime_get_mem_alloc_info] asks the engine, on the stored
    handle and with the caller's buffer, and returns its answer; in every
    other mode it returns [false] without calling anything and without
    any diagnostic.  The statics are kept either way. *)
Theorem mem_alloc_info_only_from_pool (info : ptr) (s : Machine W) :
  (memory_mode (ctx s) = MEMORY_MODE_POOL ->
   let r := Ext.mem_allocator_get_alloc_info
              (pool_allocator (ctx s)) info (world s) in
   wasm_runtime_get_mem_alloc_info info s =
     Done (fst r) {| ctx := ctx s; world := snd r |}
          [Invoke (Pool_get_alloc_info (pool_allocator (ctx s)) info)])
  /\
  (memory_mode (ctx s) <> MEMORY_MODE_POOL ->
   wasm_runtime_get_mem_alloc_info info s = Done false s []).
Proof.
  split; intros Hmode; run.
  - rewrite Hmode. cbn. step_call. reflexivity.
  - destruct (memory_mode (ctx s)); cbn; try reflexivity.
    contradiction Hmode; reflexivity.
Qed.

(** When initialisation succeeds: with the pool tag, exactly when the
    engine returned a handle; with the allocator tag, exactly when the
    allocate and release functions are present and distinct; with the
    system tag, always; with any other tag, never.  The mode after a
    success is the one the tag asks for. *)
Theorem init_succeeds_iff (tag : mem_alloc_type_t) (opt : MemAllocOption.t)
        (s : Machine W) :
  let a := MemAllocOption.allocator opt in
  let p := MemAllocOption.pool opt in
  ((exists s' t, wasm_runtime_memory_init tag opt s = Done true s' t) <->
   (tag = Alloc_With_Pool /\
    fst (Ext.mem_allocator_create (MemAllocOption.heap_buf p)
           (MemAllocOption.heap_size p) (world s)) <> NULL) \/
   (tag = Alloc_With_Allocator /\
    MemAllocOption.malloc_func a <> NULL /\
    MemAllocOption.free_func a <> NULL /\
    MemAllocOption.malloc_func a <> MemAllocOption.free_func a) \/
   tag = Alloc_With_System_Allocator)
  /\
  (forall s' t,
      wasm_runtime_memory_init tag opt s = Done true s' t ->
      (tag = Alloc_With_Pool /\ memory_mode (ctx s') = MEMORY_MODE_POOL) \/
      (tag = Alloc_With_Allocator /\
       memory_mode (ctx s') = MEMORY_MODE_ALLOCATOR) \/
      (tag = Alloc_With_System_Allocator /\
       memory_mode (ctx s') = MEMORY_MODE_SYSTEM_ALLOCATOR)).
Proof.
  intros a p. subst a p. split; [split|].
  - intros (s' & t & Hrun). revert Hrun. run.
    destruct (Z.eqb_spec tag Alloc_With_Pool) as [->|H0]; cbn.
    { step_call. unfold nonnull. destruct (Z.eqb_spec a NULL); cbn;
        intros H; inversion H. left. auto. }
    destruct (Z.eqb_spec tag Alloc_With_Allocator) as [->|H1]; cbn.
    { destruct with_user_data; cbn; split_if; intros H; inversion H;
        right; left; split; auto; apply allocator_check_true; assumption. }
    destruct (Z.eqb_spec tag Alloc_With_System_Allocator) as [->|H2]; cbn.
    { auto. }
    intros H; inversion H.
  - intros [[-> Hh]|[[-> Hc]| ->]]; run.
    + step_call. cbn in Hh. unfold nonnull.
      apply Z.eqb_neq in Hh. rewrite Hh. cbn. eauto.
    + apply allocator_check_true in Hc.
      destruct with_user_data; cbn; rewrite Hc; cbn; eauto.
    + eauto.
  - intros s' t. run.
    destruct (Z.eqb_spec tag Alloc_With_Pool) as [->|H0]; cbn.
    { step_call. destruct (nonnull a); cbn; intros H; inversion H.
      left. auto. }
    destruct (Z.eqb_spec tag Alloc_With_Allocator) as [->|H1]; cbn.
    { destruct with_user_data; cbn; split_if; intros H; inversion H;
        right; left; auto. }
    destruct (Z.eqb_spec tag Alloc_With_System_Allocator) as [->|H2]; cbn.
    { intros H; inversion H. right; right. auto. }
    intros H; inversion H.
Qed.

(** Initialisation never releases what it replaces.  Its only backend
    call is [mem_allocator_create], made for the pool tag and for no
    other; it never calls [mem_allocator_destroy].  When a machine is
    re-initialised with success to another mode than the pool, the old
    pool handle stays in the statics and a later destroy does not hand it
    to the engine. *)
Theorem init_never_destroys (tag : mem_alloc_type_t) (opt : MemAllocOption.t)
        (s : Machine W) :
  backend_calls (events_of (wasm_runtime_memory_init tag opt s)) =
    (if tag =? Alloc_With_Pool
     then [Pool_create
             (MemAllocOption.heap_buf (MemAllocOption.pool opt))
             (MemAllocOption.heap_size (MemAllocOption.pool opt))]
     else [])
  /\
  (forall s1 t1,
      tag <> Alloc_With_Pool ->
      wasm_runtime_memory_init tag opt s = Done true s1 t1 ->
      pool_allocator (ctx s1) = pool_allocator (ctx s) /\
      world s1 = world s /\
      backend_calls (events_of (wasm_runtime_memory_destroy s1)) = []).
Proof.
  split.
  - run. destruct (tag =? Alloc_With_Pool); cbn.
    + step_call. destruct (nonnull a); reflexivity.
    + destruct (tag =? Alloc_With_Allocator); cbn.
      * destruct with_user_data; cbn; split_if; reflexivity.
      * destruct (tag =? Alloc_With_System_Allocator); reflexivity.
  - intros s1 t1 Htag. apply Z.eqb_neq in Htag. run. rewrite Htag.
    destruct (tag =? Alloc_With_Allocator); cbn.
    + destruct with_user_data; cbn; split_if;
        intros H; inversion H; subst; cbn; auto.
    + destruct (tag =? Alloc_With_System_Allocator); cbn;
        intros H; inversion H; subst; cbn; auto.
Qed.

(** *** Single requests *)

(** The release of a non-null pointer makes exactly one call, the release
    operation of the active backend on that pointer, and emits no
    diagnostic; before initialisation it makes no call and only warns.
    The statics are kept. *)
Theorem release_reaches_backend (p : ptr) (s : Machine W) :
  p <> NULL ->
  match memory_mode (ctx s) with
  | MEMORY_MODE_UNKNOWN =>
      wasm_runtime_free p s =
        Done tt s
             [Warning
                "warning: wasm_runtime_free failed: memory hasn't been initialize.\n"]
  | MEMORY_MODE_POOL =>
      wasm_runtime_free p s =
        Done tt
             {| ctx := ctx s;
                world := Ext.mem_allocator_free (pool_allocator (ctx s)) p
                                                (world s) |}
             [Invoke (Pool_free (pool_allocator (ctx s)) p)]
  | MEMORY_MODE_ALLOCATOR =>
      wasm_runtime_free p s =
        Done tt
             {| ctx := ctx s;
                world := Ext.indirect_free (free_func (ctx s))
                           (stored_user_data (ctx s)) p (world s) |}
             [Invoke (Fn_free (free_func (ctx s))
                              (stored_user_data (ctx s)) p)]
  | MEMORY_MODE_SYSTEM_ALLOCATOR =>
      wasm_runtime_free p s =
        Done tt {| ctx := ctx s; world := Ext.os_free p (world s) |}
             [Invoke (Os_free p)]
  end.
Proof.
  intros Hp. apply Z.eqb_neq in Hp. unfold stored_user_data.
  destruct (memory_mode (ctx s)) eqn:Hmode; run; rewrite Hp, Hmode; cbn;
    try reflexivity.
  destruct with_user_data; reflexivity.
Qed.

(** An allocation in an initialised mode returns what the allocate
    operation of the active backend returns for the size asked (1 when 0
    was asked), a null result included, after exactly one call of it; the
    outside world is the one that call leaves. *)
Theorem allocation_returns_backend_result (size : Z) (s : Machine W) :
  let n := if size =? 0 then 1 else size in
  (memory_mode (ctx s) = MEMORY_MODE_POOL ->
   let r := Ext.mem_allocator_malloc (pool_allocator (ctx s)) n (world s) in
   exists t,
     wasm_runtime_malloc size s =
       Done (fst r) {| ctx := ctx s; world := snd r |} t /\
     backend_calls t = [Pool_malloc (pool_allocator (ctx s)) n])
  /\
  (memory_mode (ctx s) = MEMORY_MODE_ALLOCATOR ->
   let r := Ext.indirect_malloc (malloc_func (ctx s))
              (stored_user_data (ctx s)) n (world s) in
   exists t,
     wasm_runtime_malloc size s =
       Done (fst r) {| ctx := ctx s; world := snd r |} t /\
     backend_calls t =
       [Fn_malloc (malloc_func (ctx s)) (stored_user_data (ctx s)) n])
  /\
  (memory_mode (ctx s) = MEMORY_MODE_SYSTEM_ALLOCATOR ->
   let r := Ext.os_malloc n (world s) in
   exists t,
     wasm_runtime_malloc size s =
       Done (fst r) {| ctx := ctx s; world := snd r |} t /\
     backend_calls t = [Os_malloc n]).
Proof.
  intros n. subst n. unfold stored_user_data.
  repeat split; intros Hmode; run;
    destruct (size =? 0); cbn; rewrite Hmode; cbn;
    try destruct with_user_data; cbn; step_call;
    eexists; split; reflexivity.
Qed.

(** *** Introspection *)

Lemma pool_size_reads_statics (s : Machine W) :
  wasm_runtime_memory_pool_size s =
    Done (match memory_mode (ctx s) with
          | MEMORY_MODE_POOL => global_pool_size (ctx s)
          | _ => UINT32_MAX
          end) s [].
Proof. run. destruct (memory_mode (ctx s)); reflexivity. Qed.

(** The reported pool size is stable: it is the same after any sequence
    of requests as before it, and the same after an initialisation that
    failed; reading it changes nothing and calls nothing. *)
Theorem pool_size_is_stable (s : Machine W) :
  (exists n, wasm_runtime_memory_pool_size s = Done n s []) /\
  (forall rs out s' t n,
      route_all rs s = Done out s' t ->
      wasm_runtime_memory_pool_size s = Done n s [] ->
      wasm_runtime_memory_pool_size s' = Done n s' []) /\
  (forall tag opt s' t n,
      wasm_runtime_memory_init tag opt s = Done false s' t ->
      wasm_runtime_memory_pool_size s = Done n s [] ->
      wasm_runtime_memory_pool_size s' = Done n s' []).
Proof.
  split; [|split].
  - eexists. apply pool_size_reads_statics.
  - intros rs out s' t n Hrun.
    destruct (route_all_returns rs s) as (out' & s'' & t' & Hrun' & Hctx).
    rewrite Hrun in Hrun'. inversion Hrun'; subst.
    rewrite !pool_size_reads_statics, Hctx.
    intros H; inversion H; reflexivity.
  - intros tag opt s' t n Hrun.
    pose proof (failed_init_keeps_statics tag opt s s' t Hrun) as Hctx.
    rewrite !pool_size_reads_statics, Hctx.
    intros H; inversion H; reflexivity.
Qed.

End Runs.

(** ** Instances of the run properties on the concrete platform *)

Example session_calls :
  backend_calls
    (events_of (perform_all (build := Demo.plain_build) Demo.session
                            Demo.fresh))
  = [ Pool_create 65536 1024;
      Pool_malloc 65536 1;
      Pool_free 65536 4096;
      Pool_get_alloc_info 65536 9000;
      Pool_destroy 65536;
      Fn_malloc 100 None 16 ].
Proof. reflexivity. Qed.

Example requests_on_pool :
  route_all (build := Demo.plain_build) Demo.requests Demo.pooled
  = Done [Some 4096; Some 4097; Some 4121; None; None]
         {| ctx := ctx Demo.pooled;
            world := {| Demo.brk := 4121; Demo.live := 1 |} |}
         [ Warning "warning: wasm_runtime_malloc with size zero\n";
           Invoke (Pool_malloc 65536 1);
           Invoke (Pool_malloc 65536 24);
           Invoke (Pool_realloc 65536 4096 0);
           Warning "warning: wasm_runtime_free with NULL pointer\n";
           Invoke (Pool_free 65536 4096) ].
Proof. reflexivity. Qed.

Lemma runs_keep_statics_usable_witness :
  well_formed (ctx Demo.fresh) = true /\
  well_formed
    (ctx (machine_of (perform_all (build := Demo.plain_build) Demo.session
                                  Demo.fresh))) = true /\
  forallb call_ok
    (backend_calls
       (events_of (perform_all (build := Demo.plain_build) Demo.session
                               Demo.fresh))) = true.
Proof.
  split; [reflexivity|].
  apply (runs_keep_statics_usable (build := Demo.plain_build)
           Demo.session Demo.fresh).
  reflexivity.
Defined.

Lemma uninitialized_sequence_is_inert_witness :
  memory_mode (ctx Demo.destroyed) = MEMORY_MODE_UNKNOWN /\
  exists out t,
    route_all (build := Demo.plain_build) Demo.requests Demo.destroyed
      = Done out Demo.destroyed t /\
    backend_calls t = [] /\
    Forall (fun x => x = None \/ x = Some NULL) out.
Proof.
  split; [reflexivity|].
  apply (uninitialized_sequence_is_inert (build := Demo.plain_build)
           Demo.requests Demo.destroyed).
  reflexivity.
Defined.

Lemma initialised_backend_serves_requests_witness :
  wasm_runtime_memory_init (build := Demo.plain_build) Alloc_With_Pool
    (Demo.pool_option 65536 1024) Demo.fresh
    = Done true Demo.pooled [Invoke (Pool_create 65536 1024)] /\
  Forall (pool_call_on 65536)
         (backend_calls
            (events_of (route_all (build := Demo.plain_build) Demo.requests
                                  Demo.pooled))).
Proof.
  split; [reflexivity|].
  exact (proj1 (initialised_backend_serves_requests
                  (build := Demo.plain_build)
                  (Demo.pool_option 65536 1024) Demo.fresh Demo.pooled
                  [Invoke (Pool_create 65536 1024)] Demo.requests)
               eq_refl).
Defined.

Lemma engine_destroyed_once_witness :
  wasm_runtime_memory_destroy (build := Demo.plain_build) Demo.pooled
    = Done tt Demo.destroyed [Invoke (Pool_destroy 65536)] /\
  wasm_runtime_memory_destroy (build := Demo.plain_build) Demo.destroyed
    = Done tt Demo.destroyed [].
Proof.
  split; [reflexivity|].
  apply (proj2 (engine_destroyed_once (build := Demo.plain_build)
                  Demo.pooled)
               Demo.destroyed [Invoke (Pool_destroy 65536)]).
  reflexivity.
Defined.

Lemma mem_alloc_info_only_from_pool_witness :
  memory_mode (ctx Demo.pooled) = MEMORY_MODE_POOL /\
  wasm_runtime_get_mem_alloc_info 9000 Demo.pooled
    = Done true Demo.pooled [Invoke (Pool_get_alloc_info 65536 9000)] /\
  memory_mode (ctx Demo.custom) <> MEMORY_MODE_POOL /\
  wasm_runtime_get_mem_alloc_info 9000 Demo.custom
    = Done false Demo.custom [].
Proof.
  split; [reflexivity|]. split; [|split].
  - exact (proj1 (mem_alloc_info_only_from_pool 9000 Demo.pooled) eq_refl).
  - vm_compute. discriminate.
  - apply (proj2 (mem_alloc_info_only_from_pool 9000 Demo.custom)).
    vm_compute. discriminate.
Defined.

Lemma init_succeeds_iff_witness :
  (exists s' t,
      wasm_runtime_memory_init (build := Demo.plain_build) Alloc_With_Pool
        (Demo.pool_option 65536 1024) Demo.custom = Done true s' t) /\
  ~ (exists s' t,
        wasm_runtime_memory_init (build := Demo.plain_build) Alloc_With_Pool
          (Demo.pool_option 65536 8) Demo.custom = Done true s' t) /\
  ~ (exists s' t,
        wasm_runtime_memory_init (build := Demo.plain_build) 3
          (Demo.pool_option 65536 1024) Demo.custom = Done true s' t).
Proof.
  split; [|split].
  - apply (proj1 (init_succeeds_iff (build := Demo.plain_build)
                    Alloc_With_Pool (Demo.pool_option 65536 1024)
                    Demo.custom)).
    left. split; [reflexivity | vm_compute; discriminate].
  - intros H.
    apply (proj1 (init_succeeds_iff (build := Demo.plain_build)
                    Alloc_With_Pool (Demo.pool_option 65536 8)
                    Demo.custom)) in H.
    destruct H as [[_ H]|[[H _]|H]];
      [apply H; reflexivity | discriminate H | discriminate H].
  - intros H.
    apply (proj1 (init_succeeds_iff (build := Demo.plain_build)
                    3 (Demo.pool_option 65536 1024) Demo.custom)) in H.
    destruct H as [[H _]|[[H _]|H]]; discriminate H.
Defined.

Lemma init_never_destroys_witness :
  Alloc_With_System_Allocator <> Alloc_With_Pool /\
  wasm_runtime_memory_init (build := Demo.plain_build)
    Alloc_With_System_Allocator (Demo.pool_option NULL 0) Demo.pooled
    = Done true Demo.repurposed [] /\
  pool_allocator (ctx Demo.repurposed) = pool_allocator (ctx Demo.pooled) /\
  world Demo.repurposed = world Demo.pooled /\
  backend_calls
    (events_of (wasm_runtime_memory_destroy (build := Demo.plain_build)
                  Demo.repurposed)) = [].
Proof.
  split; [vm_compute; discriminate|]. split; [reflexivity|].
  apply (proj2 (init_never_destroys (build := Demo.plain_build)
                  Alloc_With_System_Allocator (Demo.pool_option NULL 0)
                  Demo.pooled)
               Demo.repurposed []).
  - vm_compute. discriminate.
  - reflexivity.
Defined.

Lemma release_reaches_backend_witness :
  4096 <> NULL /\
  wasm_runtime_free (build := Demo.plain_build) 4096 Demo.custom
    = Done tt
           {| ctx := ctx Demo.custom;
              world := {| Demo.brk := 4096; Demo.live := -1 |} |}
           [Invoke (Fn_free 200 None 4096)].
Proof.
  assert (H : 4096 <> NULL) by (vm_compute; discriminate).
  split; [exact H|].
  exact (release_reaches_backend (build := Demo.plain_build) 4096
           Demo.custom H).
Defined.

Lemma allocation_returns_backend_result_witness :
  memory_mode (ctx Demo.system) = MEMORY_MODE_SYSTEM_ALLOCATOR /\
  exists t,
    wasm_runtime_malloc (build := Demo.plain_build) 0 Demo.system
      = Done 4096
             {| ctx := ctx Demo.system;
                world := {| Demo.brk := 4097; Demo.live := 1 |} |} t /\
    backend_calls t = [Os_malloc 1].
Proof.
  split; [reflexivity|].
  exact (proj2 (proj2 (allocation_returns_backend_result
                         (build := Demo.plain_build) 0 Demo.system))
               eq_refl).
Defined.

Lemma pool_size_is_stable_witness :
  wasm_runtime_memory_pool_size Demo.pooled = Done 1024 Demo.pooled [] /\
  wasm_runtime_memory_pool_size
    (Demo.after (route_all (build := Demo.plain_build) Demo.requests)
                Demo.pooled)
    = Done 1024
           (Demo.after (route_all (build := Demo.plain_build) Demo.requests)
                       Demo.pooled) [] /\
  wasm_runtime_memory_pool_size
    (Demo.after (wasm_runtime_memory_init (build := Demo.plain_build)
                   Alloc_With_Allocator (Demo.allocator_option 100 300 100 7))
                Demo.pooled)
    = Done 1024
           (Demo.after (wasm_runtime_memory_init (build := Demo.plain_build)
                          Alloc_With_Allocator
                          (Demo.allocator_option 100 300 100 7))
                       Demo.pooled) [].
Proof.
  split; [reflexivity|]. split.
  - exact (proj1 (proj2 (pool_size_is_stable (build := Demo.plain_build)
                           Demo.pooled))
                 Demo.requests _ _ _ 1024 eq_refl eq_refl).
  - exact (proj2 (proj2 (pool_size_is_stable (build := Demo.plain_build)
                           Demo.pooled))
                 Alloc_With_Allocator (Demo.allocator_option 100 300 100 7)
                 _ _ 1024 eq_refl eq_refl).
Defined.
